(** * vllm-responses: the typed schema layer and its validation

    The repository's core is a set of declarative record schemas
    ([types/params.py], [types/tools.py], [types/reasoning.py],
    [types/response.py], [types/schemas.py]): pydantic [BaseModel] classes for
    the response side and [TypedDict] classes for the request side.  The
    program has no validation routine of its own: decoding is what pydantic
    does when it interprets the declared annotations.  The development
    therefore has three layers:

    - Python values ([pyval]) and annotations ([ty]), written as the code
      writes them;
    - [validate], the interpretation of an annotation on a value (the
      behaviour a class declaration has once it is handed raw data);
    - the declarations of the five source files, one module per file, each
      class under its own name with its fields in source order. *)

From Stdlib Require Import List String ZArith QArith.
Import ListNotations.
Close Scope Q_scope.
Open Scope string_scope.
Open Scope list_scope.

(** ** Python values *)

(** Raw request data and decoded data are both Python values.  A dictionary is
    an association list with string keys (insertion order is kept, as in
    Python); a model instance records its class, the values of its fields and
    the set of fields that were given explicitly ([model_fields_set]).
    [PIter] is the lazy iterator that stands for a value of an
    [Iterable[...]] field: its items are still raw.  Floats are carried as rationals: the code never
    computes with them, it only stores what it was given. *)
#[warnings="-register-all"]
Inductive pyval : Type :=
| PNone
| PBool (b : bool)
| PInt (z : Z)
| PFloat (q : Q)
| PStr (s : string)
| PList (l : list pyval)
| PDict (d : list (string * pyval))
| PModel (cls : string) (attrs : list (string * pyval)) (fields_set : list string)
| PIter (items : list pyval).

Definition dict := list (string * pyval).

(** [d.get(k)]. *)
Fixpoint lookup {A : Type} (k : string) (d : list (string * A)) : option A :=
  match d with
  | [] => None
  | (k', v) :: r => if String.eqb k k' then Some v else lookup k r
  end.

(** Attribute access on a model instance, key access on a dictionary. *)
Definition attr (v : pyval) (k : string) : option pyval :=
  match v with
  | PModel _ attrs _ => lookup k attrs
  | PDict d => lookup k d
  | _ => None
  end.

(** ** Annotations *)

(** Whether a field must be given: [Required] is a model field without a
    default or a [Required[...]] key of a [TypedDict]; [Default v] is a model
    field declared [= v] or [Field(default=v)]; [NotRequired] is a key of a
    [total=False] [TypedDict] that is not marked [Required]. *)
Inductive presence : Type :=
| Required
| Default (v : pyval)
| NotRequired.

(** A declared field: the attribute name, the key it is read from (the alias
    when one is declared, the name otherwise), its annotation and presence. *)
Record field (T : Type) : Type := mkField {
  fname : string;
  fkey : string;
  ftype : T;
  fpresence : presence
}.
Arguments mkField {T}.
Arguments fname {T}.
Arguments fkey {T}.
Arguments ftype {T}.
Arguments fpresence {T}.

(** [PropertyInfo] comes from [vllm_responses.types.transform], which is not
    among the sources; every use in the code is
    [PropertyInfo(discriminator="type")].  It is a plain metadata object: it
    names the discriminator and takes no part in validation. *)
Record PropertyInfo : Type := mkPropertyInfo { discriminator : string }.

#[warnings="-register-all"]
Inductive ty : Type :=
| TStr
| TInt
| TFloat
| TBool
| TLiteral (lits : list string)
| TObject
| TOptional (t : ty)
| TList (t : ty)
| TIterable (t : ty)
| TDict (t : ty)
| TUnion (ts : list ty)
| TAnnotated (t : ty) (meta : PropertyInfo)
| TBaseModel (cls : string) (fields : list (field ty))
| TTypedDict (cls : string) (fields : list (field ty)).

(** Field declarations as the source writes them. *)
Definition required (n : string) (t : ty) : field ty := mkField n n t Required.
Definition default (n : string) (t : ty) (v : pyval) : field ty := mkField n n t (Default v).
Definition not_required (n : string) (t : ty) : field ty := mkField n n t NotRequired.
Definition aliased (n alias : string) (t : ty) : field ty := mkField n alias t Required.

(** ** Validation errors *)

Inductive locitem : Type :=
| LKey (k : string)
| LIdx (i : nat).

Inductive errkind : Type :=
| missing
| string_type
| int_type
| int_from_float
| float_type
| bool_type
| literal_error (expected : list string)
| list_type
| iterable_type
| dict_type
| model_type (cls : string).

(** One line of a validation error: where, what, and the offending input. *)
Record verror : Type := mkError {
  loc : list locitem;
  kind : errkind;
  input : pyval
}.

Inductive result : Type :=
| Ok (v : pyval)
| Invalid (errs : list verror).

Definition fail (k : errkind) (v : pyval) : result := Invalid [mkError [] k v].

Definition under (l : locitem) (e : verror) : verror :=
  mkError (l :: loc e) (kind e) (input e).

(** The label a union member gets in error locations. *)
Definition label (t : ty) : string :=
  match t with
  | TStr => "str"
  | TInt => "int"
  | TFloat => "float"
  | TBool => "bool"
  | TLiteral _ => "literal"
  | TObject => "any"
  | TOptional _ => "nullable"
  | TList _ => "list"
  | TIterable _ => "generator"
  | TDict _ => "dict"
  | TUnion _ => "union"
  | TAnnotated _ _ => "union"
  | TBaseModel cls _ => cls
  | TTypedDict cls _ => cls
  end.

(** ** Validation *)

(** The outcome of validating several parts at once: pydantic does not stop
    at the first invalid part, it reports the errors of all of them. *)
Inductive collected (A : Type) : Type :=
| Valid (a : A)
| Errors (es : list verror).
Arguments Valid {A}.
Arguments Errors {A}.

Definition is_integral (q : Q) : bool :=
  (Z.rem (Qnum q) (Zpos (Qden q)) =? 0)%Z.

(** Items of a list, each under its index. *)
Fixpoint validate_items (f : pyval -> result) (i : nat) (l : list pyval)
  : collected (list pyval) :=
  match l with
  | [] => Valid []
  | x :: r =>
      match f x, validate_items f (S i) r with
      | Ok v, Valid vs => Valid (v :: vs)
      | Ok _, Errors es => Errors es
      | Invalid e, Valid _ => Errors (map (under (LIdx i)) e)
      | Invalid e, Errors es => Errors (map (under (LIdx i)) e ++ es)
      end
  end.

(** Values of a [Dict[str, T]], each under its key. *)
Fixpoint validate_values (f : pyval -> result) (d : dict) : collected dict :=
  match d with
  | [] => Valid []
  | (k, x) :: r =>
      match f x, validate_values f r with
      | Ok v, Valid vs => Valid ((k, v) :: vs)
      | Ok _, Errors es => Errors es
      | Invalid e, Valid _ => Errors (map (under (LKey k)) e)
      | Invalid e, Errors es => Errors (map (under (LKey k)) e ++ es)
      end
  end.

(** Members of a union, in declaration order: the first member that accepts
    the value decides; when none does, every member's errors are reported
    under the member's label. *)
Fixpoint validate_union (f : ty -> pyval -> result) (ts : list ty) (v : pyval)
  : result :=
  match ts with
  | [] => Invalid []
  | t :: r =>
      match f t v with
      | Ok w => Ok w
      | Invalid e =>
          match validate_union f r v with
          | Ok w => Ok w
          | Invalid es => Invalid (map (under (LKey (label t))) e ++ es)
          end
      end
  end.

(** One declared field read from a dictionary [d]: its entry, if it has
    one, and whether it was given. *)
Definition validate_field (f : ty -> pyval -> result) (fd : field ty) (d : dict)
  : collected (option (string * pyval) * bool) :=
  match lookup (fkey fd) d with
  | Some x =>
      match f (ftype fd) x with
      | Ok v => Valid (Some (fkey fd, v), true)
      | Invalid e => Errors (map (under (LKey (fkey fd))) e)
      end
  | None =>
      match fpresence fd with
      | Required => Errors [mkError [LKey (fkey fd)] missing (PDict d)]
      | Default v => Valid (Some (fkey fd, v), false)
      | NotRequired => Valid (None, false)
      end
  end.

Definition entry (o : option (string * pyval)) (vals : dict) : dict :=
  match o with Some kv => kv :: vals | None => vals end.

Definition given_key (k : string) (b : bool) (given : list string) : list string :=
  if b then k :: given else given.

(** The fields of a class read from a dictionary, in declaration order: the
    entries, and the keys that were given.  Keys that no field declares are
    ignored. *)
Fixpoint validate_fields (f : ty -> pyval -> result) (fs : list (field ty)) (d : dict)
  : collected (dict * list string) :=
  match fs with
  | [] => Valid ([], [])
  | fd :: r =>
      match validate_field f fd d, validate_fields f r d with
      | Valid (o, b), Valid (vals, given) =>
          Valid (entry o vals, given_key (fkey fd) b given)
      | Valid _, Errors es => Errors es
      | Errors e, Valid _ => Errors e
      | Errors e, Errors es => Errors (e ++ es)
      end
  end.

(** [validate t v]: the value that annotation [t] makes of the raw value [v].

    - Scalars are taken as they are typed, an integer also where a float is
      asked and an integral float where an integer is asked; a literal accepts
      exactly its strings.
    - [object] accepts anything and hands it back untouched.
    - [Optional[T]] accepts [None], and otherwise what [T] accepts.
    - [List[T]] validates every item; [Iterable[T]] only checks that it is
      given a list and hands back a lazy iterator over the raw items (they
      would be validated one by one when something iterated, and nothing in
      the sources does).
    - A union tries its members in declaration order and the first that
      accepts decides.  (pydantic may prefer a later member when several
      accept; the statements below use a union only where at most one member
      accepts, or where the choice does not matter.)  [Annotated[..., meta]]
      validates as the annotation it wraps.
    - A [BaseModel] or [TypedDict] class accepts a dictionary, reads its
      declared fields from it and ignores every other key.  A model instance
      holds every declared field, under the key the field is read from, and
      remembers which ones were given; a typed dictionary holds the keys that
      were given. *)
Fixpoint validate (t : ty) (v : pyval) {struct t} : result :=
  match t with
  | TStr => match v with PStr _ => Ok v | _ => fail string_type v end
  | TInt =>
      match v with
      | PInt _ => Ok v
      | PFloat q =>
          if is_integral q then Ok (PInt (Z.quot (Qnum q) (Zpos (Qden q))))
          else fail int_from_float v
      | _ => fail int_type v
      end
  | TFloat =>
      match v with
      | PFloat _ => Ok v
      | PInt z => Ok (PFloat (inject_Z z))
      | _ => fail float_type v
      end
  | TBool => match v with PBool _ => Ok v | _ => fail bool_type v end
  | TLiteral lits =>
      match v with
      | PStr s => if existsb (String.eqb s) lits then Ok v else fail (literal_error lits) v
      | _ => fail (literal_error lits) v
      end
  | TObject => Ok v
  | TOptional t' => match v with PNone => Ok PNone | _ => validate t' v end
  | TList t' =>
      match v with
      | PList l =>
          match validate_items (validate t') 0 l with
          | Valid vs => Ok (PList vs)
          | Errors es => Invalid es
          end
      | _ => fail list_type v
      end
  | TIterable _ =>
      match v with
      | PList l => Ok (PIter l)
      | _ => fail iterable_type v
      end
  | TDict t' =>
      match v with
      | PDict d =>
          match validate_values (validate t') d with
          | Valid vs => Ok (PDict vs)
          | Errors es => Invalid es
          end
      | _ => fail dict_type v
      end
  | TUnion ts => validate_union validate ts v
  | TAnnotated t' _ => validate t' v
  | TBaseModel cls fs =>
      match v with
      | PDict d =>
          match validate_fields validate fs d with
          | Valid (vals, given) => Ok (PModel cls vals given)
          | Errors es => Invalid es
          end
      | _ => fail (model_type cls) v
      end
  | TTypedDict cls fs =>
      match v with
      | PDict d =>
          match validate_fields validate fs d with
          | Valid (vals, _) => Ok (PDict vals)
          | Errors es => Invalid es
          end
      | _ => fail (model_type cls) v
      end
  end.

(** ** Encoding *)

(** Modelled from the spec: the encoder.  The sources declare shapes and hold
    no serialisation routine.  The spec (section 6) says of the encoder that
    it "omits fields that are simply unset" and emits the field names of the
    wire format: a model instance is written as the dictionary of the fields
    that were given, in declaration order, each value encoded in turn. *)
Fixpoint encode (v : pyval) : pyval :=
  match v with
  | PModel _ attrs given =>
      PDict ((fix entries (a : list (string * pyval)) : list (string * pyval) :=
                match a with
                | [] => []
                | (k, x) :: r =>
                    if existsb (String.eqb k) given then (k, encode x) :: entries r
                    else entries r
                end) attrs)
  | PList l => PList (map encode l)
  | PDict d =>
      PDict ((fix entries (a : list (string * pyval)) : list (string * pyval) :=
                match a with
                | [] => []
                | (k, x) :: r => (k, encode x) :: entries r
                end) d)
  | PIter l => PList l
  | _ => v
  end.

(** What pydantic's own [model_dump] writes when it is not told to leave
    anything out: every declared field, given or not. *)
Fixpoint model_dump (v : pyval) : pyval :=
  match v with
  | PModel _ attrs _ =>
      PDict ((fix entries (a : list (string * pyval)) : list (string * pyval) :=
                match a with
                | [] => []
                | (k, x) :: r => (k, model_dump x) :: entries r
                end) attrs)
  | PList l => PList (map model_dump l)
  | PDict d =>
      PDict ((fix entries (a : list (string * pyval)) : list (string * pyval) :=
                match a with
                | [] => []
                | (k, x) :: r => (k, model_dump x) :: entries r
                end) d)
  | PIter l => PList l
  | _ => v
  end.

(** ** Declarations: [types/params.py] *)

(** Every class of this file is a [TypedDict] with [total=False]: a key is
    required only where the source marks it [Required[...]]. *)
Module params.

Definition ResponseInputTextParam : ty :=
  TTypedDict "ResponseInputTextParam" [
    required "text" TStr;
    required "type" (TLiteral ["input_text"])
  ].

Definition ResponseInputImageParam : ty :=
  TTypedDict "ResponseInputImageParam" [
    required "detail" (TLiteral ["high"; "low"; "auto"]);
    required "type" (TLiteral ["input_image"]);
    not_required "file_id" (TOptional TStr);
    not_required "image_url" (TOptional TStr)
  ].

Definition ResponseInputFileParam : ty :=
  TTypedDict "ResponseInputFileParam" [
    required "type" (TLiteral ["input_file"]);
    not_required "file_data" TStr;
    not_required "file_id" TStr;
    not_required "filename" TStr
  ].

Definition ResponseInputContentParam : ty :=
  TUnion [ResponseInputTextParam; ResponseInputImageParam; ResponseInputFileParam].

Definition ResponseInputMessageContentListParam : ty :=
  TList ResponseInputContentParam.

Definition EasyInputMessageParam : ty :=
  TTypedDict "EasyInputMessageParam" [
    required "content" (TUnion [TStr; ResponseInputMessageContentListParam]);
    required "role" (TLiteral ["user"; "assistant"; "system"; "developer"]);
    not_required "type" (TLiteral ["message"])
  ].

Definition Message : ty :=
  TTypedDict "Message" [
    required "content" ResponseInputMessageContentListParam;
    required "role" (TLiteral ["user"; "system"; "developer"]);
    not_required "status" (TLiteral ["in_progress"; "completed"; "incomplete"]);
    not_required "type" (TLiteral ["message"])
  ].

Definition AnnotationFileCitation : ty :=
  TTypedDict "AnnotationFileCitation" [
    required "file_id" TStr;
    required "index" TInt;
    required "type" (TLiteral ["file_citation"])
  ].

Definition AnnotationURLCitation : ty :=
  TTypedDict "AnnotationURLCitation" [
    required "end_index" TInt;
    required "start_index" TInt;
    required "title" TStr;
    required "type" (TLiteral ["url_citation"]);
    required "url" TStr
  ].

Definition AnnotationFilePath : ty :=
  TTypedDict "AnnotationFilePath" [
    required "file_id" TStr;
    required "index" TInt;
    required "type" (TLiteral ["file_path"])
  ].

Definition Annotation : ty :=
  TUnion [AnnotationFileCitation; AnnotationURLCitation; AnnotationFilePath].

Definition ResponseOutputTextParam : ty :=
  TTypedDict "ResponseOutputTextParam" [
    required "annotations" (TIterable Annotation);
    required "text" TStr;
    required "type" (TLiteral ["output_text"])
  ].

Definition ResponseOutputRefusalParam : ty :=
  TTypedDict "ResponseOutputRefusalParam" [
    required "refusal" TStr;
    required "type" (TLiteral ["refusal"])
  ].

Definition Content : ty :=
  TUnion [ResponseOutputTextParam; ResponseOutputRefusalParam].

Definition ResponseOutputMessageParam : ty :=
  TTypedDict "ResponseOutputMessageParam" [
    required "id" TStr;
    required "content" (TIterable Content);
    required "role" (TLiteral ["assistant"]);
    required "status" (TLiteral ["in_progress"; "completed"; "incomplete"]);
    required "type" (TLiteral ["message"])
  ].

Definition Result : ty :=
  TTypedDict "Result" [
    not_required "attributes" (TOptional (TDict (TUnion [TStr; TFloat; TBool])));
    not_required "file_id" TStr;
    not_required "filename" TStr;
    not_required "score" TFloat;
    not_required "text" TStr
  ].

Definition ResponseFileSearchToolCallParam : ty :=
  TTypedDict "ResponseFileSearchToolCallParam" [
    required "id" TStr;
    required "queries" (TList TStr);
    required "status"
      (TLiteral ["in_progress"; "searching"; "completed"; "incomplete"; "failed"]);
    required "type" (TLiteral ["file_search_call"]);
    not_required "results" (TOptional (TIterable Result))
  ].

Definition ActionClick : ty :=
  TTypedDict "ActionClick" [
    required "button" (TLiteral ["left"; "right"; "wheel"; "back"; "forward"]);
    required "type" (TLiteral ["click"]);
    required "x" TInt;
    required "y" TInt
  ].

Definition ActionDoubleClick : ty :=
  TTypedDict "ActionDoubleClick" [
    required "type" (TLiteral ["double_click"]);
    required "x" TInt;
    required "y" TInt
  ].

Definition ActionDragPath : ty :=
  TTypedDict "ActionDragPath" [
    required "x" TInt;
    required "y" TInt
  ].

Definition ActionDrag : ty :=
  TTypedDict "ActionDrag" [
    required "path" (TIterable ActionDragPath);
    required "type" (TLiteral ["drag"])
  ].

Definition ActionKeypress : ty :=
  TTypedDict "ActionKeypress" [
    required "keys" (TList TStr);
    required "type" (TLiteral ["keypress"])
  ].

Definition ActionMove : ty :=
  TTypedDict "ActionMove" [
    required "type" (TLiteral ["move"]);
    required "x" TInt;
    required "y" TInt
  ].

Definition ActionScreenshot : ty :=
  TTypedDict "ActionScreenshot" [
    required "type" (TLiteral ["screenshot"])
  ].

Definition ActionScroll : ty :=
  TTypedDict "ActionScroll" [
    required "scroll_x" TInt;
    required "scroll_y" TInt;
    required "type" (TLiteral ["scroll"]);
    required "x" TInt;
    required "y" TInt
  ].

Definition ActionType : ty :=
  TTypedDict "ActionType" [
    required "text" TStr;
    required "type" (TLiteral ["type"])
  ].

Definition ActionWait : ty :=
  TTypedDict "ActionWait" [
    required "type" (TLiteral ["wait"])
  ].

Definition Action : ty :=
  TUnion [
    ActionClick;
    ActionDoubleClick;
    ActionDrag;
    ActionKeypress;
    ActionMove;
    ActionScreenshot;
    ActionScroll;
    ActionType;
    ActionWait
  ].

Definition PendingSafetyCheck : ty :=
  TTypedDict "PendingSafetyCheck" [
    required "id" TStr;
    required "code" TStr;
    required "message" TStr
  ].

Definition ResponseComputerToolCallParam : ty :=
  TTypedDict "ResponseComputerToolCallParam" [
    required "id" TStr;
    required "action" Action;
    required "call_id" TStr;
    required "pending_safety_checks" (TIterable PendingSafetyCheck);
    required "status" (TLiteral ["in_progress"; "completed"; "incomplete"]);
    required "type" (TLiteral ["computer_call"])
  ].

Definition ResponseComputerToolCallOutputScreenshotParam : ty :=
  TTypedDict "ResponseComputerToolCallOutputScreenshotParam" [
    required "type" (TLiteral ["computer_screenshot"]);
    not_required "file_id" TStr;
    not_required "image_url" TStr
  ].

Definition ComputerCallOutputAcknowledgedSafetyCheck : ty :=
  TTypedDict "ComputerCallOutputAcknowledgedSafetyCheck" [
    required "id" TStr;
    required "code" TStr;
    required "message" TStr
  ].

Definition ComputerCallOutput : ty :=
  TTypedDict "ComputerCallOutput" [
    required "call_id" TStr;
    required "output" ResponseComputerToolCallOutputScreenshotParam;
    required "type" (TLiteral ["computer_call_output"]);
    not_required "id" TStr;
    not_required "acknowledged_safety_checks"
      (TIterable ComputerCallOutputAcknowledgedSafetyCheck);
    not_required "status" (TLiteral ["in_progress"; "completed"; "incomplete"])
  ].

Definition ResponseFunctionWebSearchParam : ty :=
  TTypedDict "ResponseFunctionWebSearchParam" [
    required "id" TStr;
    required "status" (TLiteral ["in_progress"; "searching"; "completed"; "failed"]);
    required "type" (TLiteral ["web_search_call"])
  ].

Definition ResponseFunctionToolCallParam : ty :=
  TTypedDict "ResponseFunctionToolCallParam" [
    required "arguments" TStr;
    required "call_id" TStr;
    required "name" TStr;
    required "type" (TLiteral ["function_call"]);
    not_required "id" TStr;
    not_required "status" (TLiteral ["in_progress"; "completed"; "incomplete"])
  ].

Definition FunctionCallOutput : ty :=
  TTypedDict "FunctionCallOutput" [
    required "call_id" TStr;
    required "output" TStr;
    required "type" (TLiteral ["function_call_output"]);
    not_required "id" TStr;
    not_required "status" (TLiteral ["in_progress"; "completed"; "incomplete"])
  ].

Definition Summary : ty :=
  TTypedDict "Summary" [
    required "text" TStr;
    required "type" (TLiteral ["summary_text"])
  ].

Definition ResponseReasoningItemParam : ty :=
  TTypedDict "ResponseReasoningItemParam" [
    required "id" TStr;
    required "summary" (TIterable Summary);
    required "type" (TLiteral ["reasoning"]);
    not_required "status" (TLiteral ["in_progress"; "completed"; "incomplete"])
  ].

Definition ItemReference : ty :=
  TTypedDict "ItemReference" [
    required "id" TStr;
    required "type" (TLiteral ["item_reference"])
  ].

Definition ResponseInputItemParam : ty :=
  TUnion [
    EasyInputMessageParam;
    Message;
    ResponseOutputMessageParam;
    ResponseFileSearchToolCallParam;
    ResponseComputerToolCallParam;
    ComputerCallOutput;
    ResponseFunctionWebSearchParam;
    ResponseFunctionToolCallParam;
    FunctionCallOutput;
    ResponseReasoningItemParam;
    ItemReference
  ].

Definition ResponseInputParam : ty := TList ResponseInputItemParam.

End params.

(** ** Declarations: [types/tools.py] *)

Module tools.

Definition ToolChoiceOptions : ty := TLiteral ["none"; "auto"; "required"].

Definition ToolChoiceFunctionParam : ty :=
  TTypedDict "ToolChoiceFunctionParam" [
    required "name" TStr;
    required "type" (TLiteral ["function"])
  ].

Definition ToolChoice : ty := TUnion [ToolChoiceOptions; ToolChoiceFunctionParam].

Definition ComparisonFilter : ty :=
  TTypedDict "ComparisonFilter" [
    required "key" TStr;
    required "type" (TLiteral ["eq"; "ne"; "gt"; "gte"; "lt"; "lte"]);
    required "value" (TUnion [TStr; TFloat; TBool])
  ].

Definition CompoundFilter : ty :=
  TTypedDict "CompoundFilter" [
    required "filters" (TIterable (TUnion [ComparisonFilter; TObject]));
    required "type" (TLiteral ["and"; "or"])
  ].

Definition RankingOptions : ty :=
  TTypedDict "RankingOptions" [
    not_required "ranker" (TLiteral ["auto"; "default-2024-11-15"]);
    not_required "score_threshold" TFloat
  ].

Definition FileSearchToolParam : ty :=
  TTypedDict "FileSearchToolParam" [
    required "type" (TLiteral ["file_search"]);
    required "vector_store_ids" (TList TStr);
    not_required "filters" (TUnion [ComparisonFilter; CompoundFilter]);
    not_required "max_num_results" TInt;
    not_required "ranking_options" RankingOptions
  ].

Definition FunctionToolParam : ty :=
  TTypedDict "FunctionToolParam" [
    required "name" TStr;
    required "parameters" (TDict TObject);
    required "strict" TBool;
    required "type" (TLiteral ["function"]);
    not_required "description" (TOptional TStr)
  ].

Definition ComputerToolParam : ty :=
  TTypedDict "ComputerToolParam" [
    required "display_height" TFloat;
    required "display_width" TFloat;
    required "environment" (TLiteral ["mac"; "windows"; "ubuntu"; "browser"]);
    required "type" (TLiteral ["computer_use_preview"])
  ].

Definition UserLocation : ty :=
  TTypedDict "UserLocation" [
    required "type" (TLiteral ["approximate"]);
    not_required "city" TStr;
    not_required "country" TStr;
    not_required "region" TStr;
    not_required "timezone" TStr
  ].

Definition WebSearchToolParam : ty :=
  TTypedDict "WebSearchToolParam" [
    required "type" (TLiteral ["web_search_preview"; "web_search_preview_2025_03_11"]);
    not_required "search_context_size" (TLiteral ["low"; "medium"; "high"]);
    not_required "user_location" (TOptional UserLocation)
  ].

Definition ToolParam : ty :=
  TUnion [FileSearchToolParam; FunctionToolParam; ComputerToolParam; WebSearchToolParam].

End tools.

(** ** Declarations: [types/reasoning.py] *)

Module reasoning.

Definition ReasoningEffort : ty := TOptional (TLiteral ["low"; "medium"; "high"]).

Definition Reasoning : ty :=
  TTypedDict "Reasoning" [
    not_required "effort" (TOptional ReasoningEffort);
    not_required "generate_summary" (TOptional (TLiteral ["concise"; "detailed"]))
  ].

End reasoning.

(** ** Declarations: [types/response.py] *)

(** Every class of this file is a [pydantic.BaseModel]; a field declared
    [= None] has that default, every other field is required. *)
Module response.

Definition by_type : PropertyInfo := mkPropertyInfo "type".

Definition ResponseError : ty :=
  TBaseModel "ResponseError" [
    required "code" (TLiteral [
      "server_error";
      "rate_limit_exceeded";
      "invalid_prompt";
      "vector_store_timeout";
      "invalid_image";
      "invalid_image_format";
      "invalid_base64_image";
      "invalid_image_url";
      "image_too_large";
      "image_too_small";
      "image_parse_error";
      "image_content_policy_violation";
      "invalid_image_mode";
      "image_file_too_large";
      "unsupported_image_media_type";
      "empty_image_file";
      "failed_to_download_image";
      "image_file_not_found"
    ]);
    required "message" TStr
  ].

Definition IncompleteDetails : ty :=
  TBaseModel "IncompleteDetails" [
    default "reason" (TOptional (TLiteral ["max_output_tokens"; "content_filter"])) PNone
  ].

Definition AnnotationFileCitation : ty :=
  TBaseModel "AnnotationFileCitation" [
    required "file_id" TStr;
    required "index" TInt;
    required "type" (TLiteral ["file_citation"])
  ].

Definition AnnotationURLCitation : ty :=
  TBaseModel "AnnotationURLCitation" [
    required "end_index" TInt;
    required "start_index" TInt;
    required "title" TStr;
    required "type" (TLiteral ["url_citation"]);
    required "url" TStr
  ].

Definition AnnotationFilePath : ty :=
  TBaseModel "AnnotationFilePath" [
    required "file_id" TStr;
    required "index" TInt;
    required "type" (TLiteral ["file_path"])
  ].

Definition Annotation : ty :=
  TAnnotated
    (TUnion [AnnotationFileCitation; AnnotationURLCitation; AnnotationFilePath])
    by_type.

Definition ResponseOutputText : ty :=
  TBaseModel "ResponseOutputText" [
    required "annotations" (TList Annotation);
    required "text" TStr;
    required "type" (TLiteral ["output_text"])
  ].

Definition ResponseOutputRefusal : ty :=
  TBaseModel "ResponseOutputRefusal" [
    required "refusal" TStr;
    required "type" (TLiteral ["refusal"])
  ].

Definition Content : ty :=
  TAnnotated (TUnion [ResponseOutputText; ResponseOutputRefusal]) by_type.

Definition ResponseOutputMessage : ty :=
  TBaseModel "ResponseOutputMessage" [
    required "id" TStr;
    required "content" (TList Content);
    required "role" (TLiteral ["assistant"]);
    required "status" (TLiteral ["in_progress"; "completed"; "incomplete"]);
    required "type" (TLiteral ["message"])
  ].

Definition Result : ty :=
  TBaseModel "Result" [
    default "attributes" (TOptional (TDict (TUnion [TStr; TFloat; TBool]))) PNone;
    default "file_id" (TOptional TStr) PNone;
    default "filename" (TOptional TStr) PNone;
    default "score" (TOptional TFloat) PNone;
    default "text" (TOptional TStr) PNone
  ].

Definition ResponseFileSearchToolCall : ty :=
  TBaseModel "ResponseFileSearchToolCall" [
    required "id" TStr;
    required "queries" (TList TStr);
    required "status"
      (TLiteral ["in_progress"; "searching"; "completed"; "incomplete"; "failed"]);
    required "type" (TLiteral ["file_search_call"]);
    default "results" (TOptional (TList Result)) PNone
  ].

Definition ResponseFunctionToolCall : ty :=
  TBaseModel "ResponseFunctionToolCall" [
    required "arguments" TStr;
    required "call_id" TStr;
    required "name" TStr;
    required "type" (TLiteral ["function_call"]);
    default "id" (TOptional TStr) PNone;
    default "status" (TOptional (TLiteral ["in_progress"; "completed"; "incomplete"])) PNone
  ].

Definition ResponseFunctionWebSearch : ty :=
  TBaseModel "ResponseFunctionWebSearch" [
    required "id" TStr;
    required "status" (TLiteral ["in_progress"; "searching"; "completed"; "failed"]);
    required "type" (TLiteral ["web_search_call"])
  ].

Definition ActionClick : ty :=
  TBaseModel "ActionClick" [
    required "button" (TLiteral ["left"; "right"; "wheel"; "back"; "forward"]);
    required "type" (TLiteral ["click"]);
    required "x" TInt;
    required "y" TInt
  ].

Definition ActionDoubleClick : ty :=
  TBaseModel "ActionDoubleClick" [
    required "type" (TLiteral ["double_click"]);
    required "x" TInt;
    required "y" TInt
  ].

Definition ActionDragPath : ty :=
  TBaseModel "ActionDragPath" [
    required "x" TInt;
    required "y" TInt
  ].

Definition ActionDrag : ty :=
  TBaseModel "ActionDrag" [
    required "path" (TList ActionDragPath);
    required "type" (TLiteral ["drag"])
  ].

Definition ActionKeypress : ty :=
  TBaseModel "ActionKeypress" [
    required "keys" (TList TStr);
    required "type" (TLiteral ["keypress"])
  ].

Definition ActionMove : ty :=
  TBaseModel "ActionMove" [
    required "type" (TLiteral ["move"]);
    required "x" TInt;
    required "y" TInt
  ].

Definition ActionScreenshot : ty :=
  TBaseModel "ActionScreenshot" [
    required "type" (TLiteral ["screenshot"])
  ].

Definition ActionScroll : ty :=
  TBaseModel "ActionScroll" [
    required "scroll_x" TInt;
    required "scroll_y" TInt;
    required "type" (TLiteral ["scroll"]);
    required "x" TInt;
    required "y" TInt
  ].

Definition ActionType : ty :=
  TBaseModel "ActionType" [
    required "text" TStr;
    required "type" (TLiteral ["type"])
  ].

Definition ActionWait : ty :=
  TBaseModel "ActionWait" [
    required "type" (TLiteral ["wait"])
  ].

Definition Action : ty :=
  TAnnotated
    (TUnion [
      ActionClick;
      ActionDoubleClick;
      ActionDrag;
      ActionKeypress;
      ActionMove;
      ActionScreenshot;
      ActionScroll;
      ActionType;
      ActionWait
    ])
    by_type.

Definition PendingSafetyCheck : ty :=
  TBaseModel "PendingSafetyCheck" [
    required "id" TStr;
    required "code" TStr;
    required "message" TStr
  ].

Definition ResponseComputerToolCall : ty :=
  TBaseModel "ResponseComputerToolCall" [
    required "id" TStr;
    required "action" Action;
    required "call_id" TStr;
    required "pending_safety_checks" (TList PendingSafetyCheck);
    required "status" (TLiteral ["in_progress"; "completed"; "incomplete"]);
    required "type" (TLiteral ["computer_call"])
  ].

Definition Summary : ty :=
  TBaseModel "Summary" [
    required "text" TStr;
    required "type" (TLiteral ["summary_text"])
  ].

Definition ResponseReasoningItem : ty :=
  TBaseModel "ResponseReasoningItem" [
    required "id" TStr;
    required "summary" (TList Summary);
    required "type" (TLiteral ["reasoning"]);
    default "status" (TOptional (TLiteral ["in_progress"; "completed"; "incomplete"])) PNone
  ].

Definition ResponseOutputItem : ty :=
  TAnnotated
    (TUnion [
      ResponseOutputMessage;
      ResponseFileSearchToolCall;
      ResponseFunctionToolCall;
      ResponseFunctionWebSearch;
      ResponseComputerToolCall;
      ResponseReasoningItem
    ])
    by_type.

Definition ToolChoiceFunction : ty :=
  TBaseModel "ToolChoiceFunction" [
    required "name" TStr;
    required "type" (TLiteral ["function"])
  ].

Definition ToolChoice : ty := TUnion [tools.ToolChoiceOptions; ToolChoiceFunction].

Definition ComparisonFilter : ty :=
  TBaseModel "ComparisonFilter" [
    required "key" TStr;
    required "type" (TLiteral ["eq"; "ne"; "gt"; "gte"; "lt"; "lte"]);
    required "value" (TUnion [TStr; TFloat; TBool])
  ].

Definition CompoundFilter : ty :=
  TBaseModel "CompoundFilter" [
    required "filters" (TList (TUnion [ComparisonFilter; TObject]));
    required "type" (TLiteral ["and"; "or"])
  ].

Definition RankingOptions : ty :=
  TBaseModel "RankingOptions" [
    default "ranker" (TOptional (TLiteral ["auto"; "default-2024-11-15"])) PNone;
    default "score_threshold" (TOptional TFloat) PNone
  ].

Definition FileSearchTool : ty :=
  TBaseModel "FileSearchTool" [
    required "type" (TLiteral ["file_search"]);
    required "vector_store_ids" (TList TStr);
    default "filters" (TOptional (TUnion [ComparisonFilter; CompoundFilter])) PNone;
    default "max_num_results" (TOptional TInt) PNone;
    default "ranking_options" (TOptional RankingOptions) PNone
  ].

Definition FunctionTool : ty :=
  TBaseModel "FunctionTool" [
    required "name" TStr;
    required "parameters" (TDict TObject);
    required "strict" TBool;
    required "type" (TLiteral ["function"]);
    default "description" (TOptional TStr) PNone
  ].

Definition ComputerTool : ty :=
  TBaseModel "ComputerTool" [
    required "display_height" TFloat;
    required "display_width" TFloat;
    required "environment" (TLiteral ["mac"; "windows"; "ubuntu"; "browser"]);
    required "type" (TLiteral ["computer_use_preview"])
  ].

Definition UserLocation : ty :=
  TBaseModel "UserLocation" [
    required "type" (TLiteral ["approximate"]);
    default "city" (TOptional TStr) PNone;
    default "country" (TOptional TStr) PNone;
    default "region" (TOptional TStr) PNone;
    default "timezone" (TOptional TStr) PNone
  ].

Definition WebSearchTool : ty :=
  TBaseModel "WebSearchTool" [
    required "type" (TLiteral ["web_search_preview"; "web_search_preview_2025_03_11"]);
    default "search_context_size" (TOptional (TLiteral ["low"; "medium"; "high"])) PNone;
    default "user_location" (TOptional UserLocation) PNone
  ].

Definition Tool : ty :=
  TAnnotated (TUnion [FileSearchTool; FunctionTool; ComputerTool; WebSearchTool]) by_type.

Definition ReasoningEffort : ty := TOptional (TLiteral ["low"; "medium"; "high"]).

Definition Reasoning : ty :=
  TBaseModel "Reasoning" [
    default "effort" (TOptional ReasoningEffort) PNone;
    default "generate_summary" (TOptional (TLiteral ["concise"; "detailed"])) PNone
  ].

Definition ResponseFormatText : ty :=
  TBaseModel "ResponseFormatText" [
    required "type" (TLiteral ["text"])
  ].

Definition ResponseFormatTextJSONSchemaConfig : ty :=
  TBaseModel "ResponseFormatTextJSONSchemaConfig" [
    aliased "schema_" "schema" (TDict TObject);
    required "type" (TLiteral ["json_schema"]);
    default "description" (TOptional TStr) PNone;
    default "name" (TOptional TStr) PNone;
    default "strict" (TOptional TBool) PNone
  ].

Definition ResponseFormatJSONObject : ty :=
  TBaseModel "ResponseFormatJSONObject" [
    required "type" (TLiteral ["json_object"])
  ].

Definition ResponseFormatTextConfig : ty :=
  TAnnotated
    (TUnion [ResponseFormatText; ResponseFormatTextJSONSchemaConfig; ResponseFormatJSONObject])
    by_type.

Definition ResponseTextConfig : ty :=
  TBaseModel "ResponseTextConfig" [
    default "format" (TOptional ResponseFormatTextConfig) PNone
  ].

Definition InputTokensDetails : ty :=
  TBaseModel "InputTokensDetails" [
    required "cached_tokens" TInt
  ].

Definition OutputTokensDetails : ty :=
  TBaseModel "OutputTokensDetails" [
    required "reasoning_tokens" TInt
  ].

Definition ResponseUsage : ty :=
  TBaseModel "ResponseUsage" [
    required "input_tokens" TInt;
    required "input_tokens_details" InputTokensDetails;
    required "output_tokens" TInt;
    required "output_tokens_details" OutputTokensDetails;
    required "total_tokens" TInt
  ].

End response.

(** ** Declarations: [types/schemas.py] *)

(** The two bodies of the API.  [Reasoning] is the [TypedDict] of
    [types/reasoning.py], [ToolChoice] and [Tool] are the models of
    [types/response.py] and [ToolParam] is the [TypedDict] union of
    [types/tools.py], as the imports of the file say. *)
Module schemas.

Definition ResponseIncludable : ty :=
  TLiteral [
    "file_search_call.results";
    "message.input_image.image_url";
    "computer_call_output.output.image_url"
  ].

Definition Metadata : ty := TDict TStr.

Definition ResponsesCreate : ty :=
  TBaseModel "ResponsesCreate" [
    required "input" (TUnion [TStr; params.ResponseInputParam]);
    required "model" TStr;
    default "include" (TOptional (TList ResponseIncludable)) PNone;
    default "instructions" (TOptional TStr) PNone;
    default "max_output_tokens" (TOptional TInt) PNone;
    default "metadata" (TOptional Metadata) PNone;
    default "parallel_tool_calls" (TOptional TBool) (PBool true);
    default "previous_response_id" (TOptional TStr) PNone;
    default "reasoning" (TOptional reasoning.Reasoning) PNone;
    default "store" (TOptional TBool) (PBool true);
    default "stream" (TOptional TBool) (PBool false);
    default "temperature" (TOptional TFloat) PNone;
    default "text" (TOptional (TDict TStr)) PNone;
    default "tool_choice" (TOptional response.ToolChoice) PNone;
    default "tools" (TOptional (TIterable tools.ToolParam)) PNone;
    default "top_p" (TOptional TFloat) (PFloat 1.0);
    default "truncation" (TOptional (TLiteral ["auto"; "disabled"])) (PStr "disabled");
    default "user" (TOptional TStr) PNone
  ].

Definition Response : ty :=
  TBaseModel "Response" [
    required "created_at" TFloat;
    default "error" (TOptional response.ResponseError) PNone;
    required "id" TStr;
    default "incomplete_details" (TOptional response.IncompleteDetails) PNone;
    default "instructions" (TOptional TStr) PNone;
    default "max_output_tokens" (TOptional TInt) PNone;
    default "metadata" (TOptional Metadata) PNone;
    required "model" TStr;
    required "object" (TLiteral ["response"]);
    required "output" (TList response.ResponseOutputItem);
    required "parallel_tool_calls" TBool;
    default "previous_response_id" (TOptional TStr) PNone;
    default "reasoning" (TOptional reasoning.Reasoning) PNone;
    required "status" (TLiteral ["completed"; "failed"; "in_progress"; "incomplete"]);
    default "temperature" (TOptional TFloat) PNone;
    default "text" (TOptional response.ResponseTextConfig) PNone;
    required "tool_choice" response.ToolChoice;
    required "tools" (TList response.Tool);
    default "top_p" (TOptional TFloat) PNone;
    default "truncation" (TOptional (TLiteral ["auto"; "disabled"])) (PStr "disabled");
    default "usage" (TOptional response.ResponseUsage) PNone;
    default "user" (TOptional TStr) PNone
  ].

End schemas.

(** ** Unions, variants and instances *)

(** The variants of a union position: the members of the union, looking
    through [Annotated]. *)
Fixpoint variants (t : ty) : list ty :=
  match t with
  | TUnion ts => ts
  | TAnnotated t' _ => variants t'
  | _ => [t]
  end.

(** The literals a class declares for a required [type] field, if it
    declares one. *)
Definition type_literals (t : ty) : option (list string) :=
  match t with
  | TBaseModel _ fs | TTypedDict _ fs =>
      match find (fun fd => String.eqb (fkey fd) "type") fs with
      | Some fd =>
          match fpresence fd, ftype fd with
          | Required, TLiteral lits => Some lits
          | _, _ => None
          end
      | None => None
      end
  | _ => None
  end.

(** A union is discriminated when every variant is a class with a required
    literal [type]. *)
Definition discriminated (t : ty) : bool :=
  forallb (fun m => match type_literals m with Some _ => true | None => false end)
          (variants t).

(** The closed set of [type] literals of a union. *)
Definition closed_set (t : ty) : list string :=
  flat_map (fun m => match type_literals m with Some l => l | None => [] end)
           (variants t).

(** The union positions of the response side ([types/response.py]).  The
    filter union is the annotation of [FileSearchTool.filters]. *)
Definition response_filters : ty :=
  TUnion [response.ComparisonFilter; response.CompoundFilter].

Definition response_unions : list ty := [
  response.ResponseOutputItem;
  response.Content;
  response.Annotation;
  response.Action;
  response.Tool;
  response.ToolChoice;
  response_filters
].

(** Their counterparts on the request side ([types/params.py],
    [types/tools.py]).  The input item union is not among them: its message
    variants overlap ([EasyInputMessageParam], [Message] and
    [ResponseOutputMessageParam] accept common records), so what a record
    decodes to there depends on how the union is resolved. *)
Definition request_filters : ty :=
  TUnion [tools.ComparisonFilter; tools.CompoundFilter].

Definition request_unions : list ty := [
  params.ResponseInputContentParam;
  params.Content;
  params.Annotation;
  params.Action;
  tools.ToolParam;
  tools.ToolChoice;
  request_filters
].

(** The free content of an instance: the string, integer, float and boolean
    put at each key, and which literal is picked where several are allowed. *)
Record payload : Type := mkPayload {
  pstr : string -> string;
  pint : string -> Z;
  pfloat : string -> Q;
  pbool : string -> bool;
  plit : nat
}.

(** The minimal well-formed instance of an annotation: a class gets exactly
    its required fields, a list or dictionary is empty, an optional value is
    [None], a union takes its first member. *)
Fixpoint minimal (p : payload) (k : string) (t : ty) {struct t} : pyval :=
  match t with
  | TStr => PStr (pstr p k)
  | TInt => PInt (pint p k)
  | TFloat => PFloat (pfloat p k)
  | TBool => PBool (pbool p k)
  | TLiteral lits => PStr (nth (plit p) lits (hd "" lits))
  | TObject => PNone
  | TOptional _ => PNone
  | TList _ => PList []
  | TIterable _ => PList []
  | TDict _ => PDict []
  | TUnion ts => match ts with t' :: _ => minimal p k t' | [] => PNone end
  | TAnnotated t' _ => minimal p k t'
  | TBaseModel _ fs | TTypedDict _ fs =>
      PDict ((fix required_fields (fs : list (field ty)) : dict :=
                match fs with
                | [] => []
                | fd :: r =>
                    match fpresence fd with
                    | Required =>
                        (fkey fd, minimal p (fkey fd) (ftype fd)) :: required_fields r
                    | _ => required_fields r
                    end
                end) fs)
  end.

(** Decoding [v] at position [t] and encoding the result gives [v] back. *)
Definition round_trips (t : ty) (v : pyval) : Prop :=
  exists w, validate t v = Ok w /\ encode w = v.

(** The field a class declares for key [k]. *)
Definition declared (k : string) (fs : list (field ty)) : option (field ty) :=
  find (fun fd => String.eqb k (fkey fd)) fs.

Definition fields_of (t : ty) : list (field ty) :=
  match t with
  | TBaseModel _ fs | TTypedDict _ fs => fs
  | _ => []
  end.

(** ** Bodies used in the statements *)

(** A response body that gives every required field of [Response] and no
    other: no output items, no tools, the [auto] tool choice. *)
Definition response_body (id model : string) (created_at : Q) (status : string) : dict :=
  [ ("created_at", PFloat created_at);
    ("id", PStr id);
    ("model", PStr model);
    ("object", PStr "response");
    ("output", PList []);
    ("parallel_tool_calls", PBool true);
    ("status", PStr status);
    ("tool_choice", PStr "auto");
    ("tools", PList []) ].

(** A file-search tool that gives its result-count bound and the score
    threshold of its ranking options. *)
Definition file_search_tool (max_num_results : Z) (score_threshold : Q) : pyval :=
  PDict [ ("type", PStr "file_search");
          ("vector_store_ids", PList []);
          ("max_num_results", PInt max_num_results);
          ("ranking_options", PDict [("score_threshold", PFloat score_threshold)]) ].

(** A comparison filter, and compound filters around it: [nested n] has [n]
    compound levels above the comparison. *)
Definition comparison : pyval :=
  PDict [("key", PStr "k"); ("type", PStr "eq"); ("value", PStr "v")].

Definition compound (filters : list pyval) : pyval :=
  PDict [("filters", PList filters); ("type", PStr "and")].

Fixpoint nested (n : nat) : pyval :=
  match n with
  | O => comparison
  | S m => compound [nested m]
  end.

(** The number of compound levels of a raw filter. *)
Fixpoint depth_fuel (fuel : nat) (v : pyval) : nat :=
  match fuel with
  | O => O
  | S fuel' =>
      match v with
      | PDict d =>
          match lookup "filters" d with
          | Some (PList l) => S (fold_right (fun x m => Nat.max (depth_fuel fuel' x) m) O l)
          | _ => O
          end
      | _ => O
      end
  end.

(** A create request that gives [input], [model] and further entries. *)
Definition create_body (input : pyval) (model : string) (more : dict) : dict :=
  [("input", input); ("model", PStr model)] ++ more.

(** A function tool named [name], and the selector that names a function. *)
Definition function_tool (name : string) : pyval :=
  PDict [ ("name", PStr name);
          ("parameters", PDict []);
          ("strict", PBool true);
          ("type", PStr "function") ].

Definition tool_choice_function (name : string) : pyval :=
  PDict [("type", PStr "function"); ("name", PStr name)].

(** An optional string key of a record: left out, given as [null], or given
    as a string. *)
Inductive optional_str : Type :=
| Absent
| Null
| Given (s : string).

Definition optional_entry (k : string) (o : optional_str) : dict :=
  match o with
  | Absent => []
  | Null => [(k, PNone)]
  | Given s => [(k, PStr s)]
  end.

(** An input-image content part. *)
Definition input_image (detail : string) (file_id image_url : optional_str) : pyval :=
  PDict ([("detail", PStr detail); ("type", PStr "input_image")]
         ++ optional_entry "file_id" file_id
         ++ optional_entry "image_url" image_url).

(** The user message that the spec's normaliser would make of a bare
    string. *)
Definition user_message (text : string) : pyval :=
  PDict [ ("content", PList [PDict [("text", PStr text); ("type", PStr "input_text")]]);
          ("role", PStr "user") ].

Definition is_union (t : ty) : bool :=
  match t with
  | TUnion _ => true
  | TAnnotated (TUnion _) _ => true
  | _ => false
  end.

(** The union positions all of whose variants declare a required literal
    [type], on both sides. *)
Definition discriminated_unions : list ty := [
  response.ResponseOutputItem;
  response.Content;
  response.Annotation;
  response.Action;
  response.Tool;
  response.ResponseFormatTextConfig;
  response_filters;
  params.ResponseInputContentParam;
  params.Content;
  params.Annotation;
  params.Action;
  tools.ToolParam;
  request_filters
].

(** An input message that gives no [type]. *)
Definition untyped_message (role text : string) : pyval :=
  PDict [("content", PStr text); ("role", PStr role)].

(** ** Further definitions used in the statements *)

Definition is_class (t : ty) : Prop :=
  match t with
  | TBaseModel _ _ | TTypedDict _ _ => True
  | _ => False
  end.

(** The keys a class declares, and those it requires. *)
Definition declared_keys (t : ty) : list string := map fkey (fields_of t).

Definition required_keys (t : ty) : list string :=
  map fkey
      (filter (fun fd => match fpresence fd with Required => true | _ => false end)
              (fields_of t)).

(** The literals a class allows for [type], required or not. *)
Definition type_annotation (t : ty) : option (list string) :=
  match declared "type" (fields_of t) with
  | Some fd => match ftype fd with TLiteral lits => Some lits | _ => None end
  | None => None
  end.

(** A string-to-string map as raw data. *)
Definition strings (entries : list (string * string)) : dict :=
  map (fun kv => (fst kv, PStr (snd kv))) entries.

(** ** Declarations: [server/core.py] *)

(** [ApplicationCore] is a litestar plugin.  Of litestar's [AppConfig] it
    touches [route_handlers] only; everything else the configuration holds is
    carried along.  [SystemController] comes from
    [vllm_responses.domain.system.controllers], which is not among the
    sources: it is a handler like any other. *)
Module core.

Record AppConfig (handler rest : Type) : Type := mkAppConfig {
  route_handlers : list handler;
  settings : rest
}.
Arguments mkAppConfig {handler rest}.
Arguments route_handlers {handler rest}.
Arguments settings {handler rest}.

Section ApplicationCore.

Variables handler rest group : Type.
Variable SystemController : handler.

(** [on_cli_init] is [pass]: the command group is left as it is. *)
Definition on_cli_init (cli : group) : group := cli.

(** [app_config.route_handlers.extend([SystemController])], then the
    configuration is returned. *)
Definition on_app_init (app_config : AppConfig handler rest) : AppConfig handler rest :=
  mkAppConfig (route_handlers app_config ++ [SystemController]) (settings app_config).

End ApplicationCore.

End core.

(** * Properties *)

(** ** Reading fields *)

Section Fields.

Variable f : ty -> pyval -> result.

Lemma validate_field_key (fd : field ty) (d : dict) (kv : string * pyval) (b : bool) :
  validate_field f fd d = Valid (Some kv, b) -> fst kv = fkey fd.
Proof.
  unfold validate_field.
  destruct (lookup (fkey fd) d) as [x|].
  - destruct (f (ftype fd) x); intros H; inversion H; reflexivity.
  - destruct (fpresence fd); intros H; inversion H; reflexivity.
Qed.

Lemma lookup_entry_other (k : string) (fd : field ty) (d vals : dict)
      (o : option (string * pyval)) (b : bool) :
  validate_field f fd d = Valid (o, b) ->
  String.eqb k (fkey fd) = false ->
  lookup k (entry o vals) = lookup k vals.
Proof.
  intros H Hk. destruct o as [[k' x]|]; simpl; [|reflexivity].
  apply validate_field_key in H. simpl in H. subst k'.
  rewrite Hk. reflexivity.
Qed.

(** Fields are read by key: what a class makes of a record does not depend
    on the order in which the record lists its keys. *)
Lemma validate_field_ext (fd : field ty) (d d' : dict)
      (r : option (string * pyval) * bool) :
  (forall k, lookup k d = lookup k d') ->
  validate_field f fd d = Valid r -> validate_field f fd d' = Valid r.
Proof.
  intros Hsame. unfold validate_field. rewrite <- Hsame.
  destruct (lookup (fkey fd) d) as [x|]; [auto|].
  destruct (fpresence fd); auto. discriminate.
Qed.

Lemma validate_fields_ext (fs : list (field ty)) (d d' : dict)
      (r : dict * list string) :
  (forall k, lookup k d = lookup k d') ->
  validate_fields f fs d = Valid r -> validate_fields f fs d' = Valid r.
Proof.
  intros Hsame. revert r.
  induction fs as [|fd0 fs IH]; intros r H; [exact H|].
  simpl in *.
  destruct (validate_field f fd0 d) as [[o b]|e] eqn:Hf;
    destruct (validate_fields f fs d) as [[vals given]|es] eqn:Hr;
    try discriminate.
  rewrite (validate_field_ext fd0 d d' (o, b) Hsame Hf).
  rewrite (IH (vals, given) eq_refl). exact H.
Qed.

(** A field that is not given and has a default takes its default. *)
Lemma validate_fields_default (fs : list (field ty)) (d vals : dict)
      (given : list string) (k : string) (fd : field ty) (x : pyval) :
  validate_fields f fs d = Valid (vals, given) ->
  lookup k d = None ->
  declared k fs = Some fd ->
  fpresence fd = Default x ->
  lookup k vals = Some x.
Proof.
  revert vals given.
  induction fs as [|fd0 r IH]; intros vals given Hv Hd Hdecl Hp.
  - discriminate.
  - simpl in Hv.
    destruct (validate_field f fd0 d) as [[o b]|e] eqn:Hf;
      destruct (validate_fields f r d) as [[vals' given']|es] eqn:Hr;
      try discriminate.
    inversion Hv; subst; clear Hv.
    unfold declared in Hdecl. simpl in Hdecl.
    destruct (String.eqb k (fkey fd0)) eqn:Hk.
    + inversion Hdecl; subst fd0; clear Hdecl.
      apply String.eqb_eq in Hk. subst k.
      unfold validate_field in Hf. rewrite Hd, Hp in Hf.
      inversion Hf; subst. simpl. rewrite String.eqb_refl. reflexivity.
    + rewrite (lookup_entry_other k fd0 d vals' o b Hf Hk).
      eapply IH; eauto.
Qed.

(** A field that is given holds what its annotation makes of the value. *)
Lemma validate_fields_given (fs : list (field ty)) (d vals : dict)
      (given : list string) (k : string) (fd : field ty) (x : pyval) :
  validate_fields f fs d = Valid (vals, given) ->
  lookup k d = Some x ->
  declared k fs = Some fd ->
  exists y, f (ftype fd) x = Ok y /\ lookup k vals = Some y.
Proof.
  revert vals given.
  induction fs as [|fd0 r IH]; intros vals given Hv Hd Hdecl.
  - discriminate.
  - simpl in Hv.
    destruct (validate_field f fd0 d) as [[o b]|e] eqn:Hf;
      destruct (validate_fields f r d) as [[vals' given']|es] eqn:Hr;
      try discriminate.
    inversion Hv; subst; clear Hv.
    unfold declared in Hdecl. simpl in Hdecl.
    destruct (String.eqb k (fkey fd0)) eqn:Hk.
    + inversion Hdecl; subst fd0; clear Hdecl.
      apply String.eqb_eq in Hk. subst k.
      unfold validate_field in Hf. rewrite Hd in Hf.
      destruct (f (ftype fd) x) as [y|e]; [|discriminate].
      inversion Hf; subst. exists y. simpl. rewrite String.eqb_refl. auto.
    + rewrite (lookup_entry_other k fd0 d vals' o b Hf Hk).
      eapply IH; eauto.
Qed.

(** A required field that is not given is reported missing. *)
Lemma validate_fields_missing (fs : list (field ty)) (d : dict) (fd : field ty) :
  In fd fs ->
  fpresence fd = Required ->
  lookup (fkey fd) d = None ->
  exists es, validate_fields f fs d = Errors es /\
             In (mkError [LKey (fkey fd)] missing (PDict d)) es.
Proof.
  induction fs as [|fd0 r IH]; intros Hin Hp Hd; [contradiction|].
  simpl. destruct Hin as [->|Hin].
  - unfold validate_field at 1. rewrite Hd, Hp.
    destruct (validate_fields f r d) as [[vals given]|es]; eexists; split;
      try reflexivity; simpl; auto.
  - destruct (IH Hin Hp Hd) as [es [-> Hes]].
    destruct (validate_field f fd0 d) as [[o b]|e]; eexists; split;
      try reflexivity; auto.
    apply in_or_app. auto.
Qed.

(** A field whose value its annotation rejects is reported under its key. *)
Lemma validate_fields_rejected (fs : list (field ty)) (d : dict) (fd : field ty)
      (x : pyval) (e : list verror) :
  In fd fs ->
  lookup (fkey fd) d = Some x ->
  f (ftype fd) x = Invalid e ->
  exists es, validate_fields f fs d = Errors es /\
             incl (map (under (LKey (fkey fd))) e) es.
Proof.
  induction fs as [|fd0 r IH]; intros Hin Hd He; [contradiction|].
  simpl. destruct Hin as [->|Hin].
  - unfold validate_field at 1. rewrite Hd, He.
    destruct (validate_fields f r d) as [[vals given]|es]; eexists; split;
      try reflexivity.
    + apply incl_refl.
    + apply incl_appl, incl_refl.
  - destruct (IH Hin Hd He) as [es [-> Hes]].
    destruct (validate_field f fd0 d) as [[o b]|e0]; eexists; split;
      try reflexivity; auto.
    apply incl_appr. assumption.
Qed.

(** When every member rejects, the union reports each member's errors under
    the member's label. *)
Lemma validate_union_rejects (ts : list ty) (v : pyval) :
  (forall t, In t ts -> exists e, f t v = Invalid e) ->
  exists es, validate_union f ts v = Invalid es /\
             forall t e, In t ts -> f t v = Invalid e ->
                         incl (map (under (LKey (label t))) e) es.
Proof.
  induction ts as [|t0 r IH]; intros Hall.
  - exists []. split; [reflexivity|]. intros t e [].
  - simpl.
    destruct (Hall t0 (or_introl eq_refl)) as [e0 He0]. rewrite He0.
    destruct IH as [es [-> Hes]].
    { intros t Ht. apply Hall. right. assumption. }
    eexists. split; [reflexivity|].
    intros t e [<-|Ht] He.
    + rewrite He0 in He. inversion He; subst. apply incl_appl, incl_refl.
    + apply incl_appr. eapply Hes; eauto.
Qed.

End Fields.

(** ** Classes *)

Lemma validate_model_inv (cls : string) (fs : list (field ty)) (d : dict) (v : pyval) :
  validate (TBaseModel cls fs) (PDict d) = Ok v ->
  exists vals given,
    validate_fields validate fs d = Valid (vals, given) /\ v = PModel cls vals given.
Proof.
  simpl. destruct (validate_fields validate fs d) as [[vals given]|es]; intros H;
    inversion H. eauto.
Qed.

Lemma validate_model_eq (cls : string) (fs : list (field ty)) (d : dict) :
  validate (TBaseModel cls fs) (PDict d)
  = match validate_fields validate fs d with
    | Valid (vals, given) => Ok (PModel cls vals given)
    | Errors es => Invalid es
    end.
Proof. reflexivity. Qed.

Lemma validate_list_eq (t : ty) (l : list pyval) :
  validate (TList t) (PList l)
  = match validate_items (validate t) 0 l with
    | Valid vs => Ok (PList vs)
    | Errors es => Invalid es
    end.
Proof. reflexivity. Qed.

Lemma validate_fields_cons (f : ty -> pyval -> result) (fd : field ty)
      (r : list (field ty)) (d : dict) :
  validate_fields f (fd :: r) d
  = match validate_field f fd d, validate_fields f r d with
    | Valid (o, b), Valid (vals, given) =>
        Valid (entry o vals, given_key (fkey fd) b given)
    | Valid _, Errors es => Errors es
    | Errors e, Valid _ => Errors e
    | Errors e, Errors es => Errors (e ++ es)
    end.
Proof. reflexivity. Qed.

Lemma validate_field_given (f : ty -> pyval -> result) (k : string) (t : ty)
      (p : presence) (d : dict) (x : pyval) :
  lookup k d = Some x ->
  validate_field f (mkField k k t p) d
  = match f t x with
    | Ok v => Valid (Some (k, v), true)
    | Invalid e => Errors (map (under (LKey k)) e)
    end.
Proof. intros H. unfold validate_field. simpl. rewrite H. reflexivity. Qed.

Lemma class_key_order (m : ty) (d d' : dict) (v : pyval) :
  match m with TBaseModel _ _ | TTypedDict _ _ => True | _ => False end ->
  (forall k, lookup k d = lookup k d') ->
  validate m (PDict d) = Ok v -> validate m (PDict d') = Ok v.
Proof.
  intros Hm Hsame.
  destruct m as [| | | | | | | | | | | |cls fs|cls fs]; try contradiction; simpl;
    (destruct (validate_fields validate fs d) as [[vals given]|es] eqn:Hf;
     [|discriminate];
     rewrite (validate_fields_ext validate fs d d' _ Hsame Hf); auto).
Qed.

(** A model field left out of the input holds its declared default. *)
Lemma model_default (cls : string) (fs : list (field ty)) (d : dict) (v : pyval)
      (k : string) (fd : field ty) (x : pyval) :
  validate (TBaseModel cls fs) (PDict d) = Ok v ->
  declared k fs = Some fd ->
  fpresence fd = Default x ->
  lookup k d = None ->
  attr v k = Some x.
Proof.
  intros Hv Hdecl Hp Hd.
  apply validate_model_inv in Hv. destruct Hv as [vals [given [Hf ->]]].
  simpl. eapply validate_fields_default; eauto.
Qed.

(** ** The create request: defaults *)

(** C10.  A create request that decodes and leaves out an optional knob gets
    the declared default for it: [stream] is false, [store] and
    [parallel_tool_calls] are true, [truncation] is ["disabled"], [top_p] is
    1.0, and [temperature], [max_output_tokens], [tool_choice], [tools],
    [metadata] and [instructions] are [None]. *)
Theorem create_request_defaults (d : dict) (v : pyval) :
  validate schemas.ResponsesCreate (PDict d) = Ok v ->
  (lookup "stream" d = None -> attr v "stream" = Some (PBool false)) /\
  (lookup "store" d = None -> attr v "store" = Some (PBool true)) /\
  (lookup "parallel_tool_calls" d = None ->
   attr v "parallel_tool_calls" = Some (PBool true)) /\
  (lookup "truncation" d = None -> attr v "truncation" = Some (PStr "disabled")) /\
  (lookup "top_p" d = None -> attr v "top_p" = Some (PFloat 1.0)) /\
  (lookup "temperature" d = None -> attr v "temperature" = Some PNone) /\
  (lookup "max_output_tokens" d = None -> attr v "max_output_tokens" = Some PNone) /\
  (lookup "tool_choice" d = None -> attr v "tool_choice" = Some PNone) /\
  (lookup "tools" d = None -> attr v "tools" = Some PNone) /\
  (lookup "metadata" d = None -> attr v "metadata" = Some PNone) /\
  (lookup "instructions" d = None -> attr v "instructions" = Some PNone).
Proof.
  intros Hv.
  repeat split; intros Hd;
    (eapply model_default; [exact Hv | reflexivity | reflexivity | exact Hd]).
Qed.

(** The request that gives only [input] and [model] decodes to all of the
    defaults at once. *)
Lemma create_request_defaults_witness :
  exists v,
    validate schemas.ResponsesCreate
             (PDict [("input", PStr "hello"); ("model", PStr "m")]) = Ok v /\
    attr v "stream" = Some (PBool false) /\
    attr v "store" = Some (PBool true) /\
    attr v "parallel_tool_calls" = Some (PBool true) /\
    attr v "truncation" = Some (PStr "disabled") /\
    attr v "top_p" = Some (PFloat 1.0) /\
    attr v "temperature" = Some PNone /\
    attr v "max_output_tokens" = Some PNone /\
    attr v "tool_choice" = Some PNone /\
    attr v "tools" = Some PNone /\
    attr v "metadata" = Some PNone /\
    attr v "instructions" = Some PNone.
Proof.
  eexists. split; [reflexivity|].
  pose proof (create_request_defaults
                [("input", PStr "hello"); ("model", PStr "m")] _ eq_refl) as H.
  do 10 (destruct H as [H0 H]; split; [exact (H0 eq_refl)|clear H0]).
  exact (H eq_refl).
Defined.

(** ** The response: status, error and incomplete details *)

(** Whatever its status, a response that gives no [error] is constructed
    with [error = None]; the same holds of [incomplete_details] and
    [usage]. *)
Lemma response_optional_default (d : dict) (v : pyval) (k : string) :
  validate schemas.Response (PDict d) = Ok v ->
  In k ["error"; "incomplete_details"; "usage"] ->
  lookup k d = None ->
  attr v k = Some PNone.
Proof.
  intros Hv Hk Hd.
  simpl in Hk. destruct Hk as [<-|[<-|[<-|[]]]];
    (eapply model_default; [exact Hv | reflexivity | reflexivity | exact Hd]).
Qed.

(** C3, refuted as stated: a response with status ["failed"] and no [error]
    is constructed, and its [error] is [None]. *)
Lemma failed_response_without_error :
  exists v,
    validate schemas.Response (PDict (response_body "resp_1" "m" 0 "failed")) = Ok v /\
    attr v "status" = Some (PStr "failed") /\
    attr v "error" = Some PNone.
Proof.
  eexists. split; [reflexivity|]. split; reflexivity.
Qed.

(** C3, as the code has it.  The construction of a response does not relate
    [status] to [error], [incomplete_details] or [usage]: with any of the four
    statuses, a body that gives none of the three is constructed and holds
    [None] for each; and an incomplete response whose [incomplete_details]
    gives no [reason] is constructed with [reason = None]. *)
Theorem response_status_unconstrained (id model : string) (created_at : Q) :
  Forall (fun s =>
            exists v,
              validate schemas.Response
                       (PDict (response_body id model created_at s)) = Ok v /\
              attr v "status" = Some (PStr s) /\
              attr v "error" = Some PNone /\
              attr v "incomplete_details" = Some PNone /\
              attr v "usage" = Some PNone)
         ["completed"; "failed"; "in_progress"; "incomplete"] /\
  exists v details,
    validate schemas.Response
             (PDict (response_body id model created_at "incomplete"
                     ++ [("incomplete_details", PDict [])])) = Ok v /\
    attr v "status" = Some (PStr "incomplete") /\
    attr v "incomplete_details" = Some details /\
    attr details "reason" = Some PNone.
Proof.
  split.
  - repeat constructor; eexists; (split; [reflexivity|]); repeat split; reflexivity.
  - do 2 eexists. split; [reflexivity|]. repeat split; reflexivity.
Qed.

(** ** File search: the numeric bounds *)

(** C4, evaluated on the code.  A file-search tool decodes with any
    [max_num_results] and any [score_threshold], on the response side and on
    the request side alike: the two fields are declared [Optional[int]] and
    [Optional[float]] and nothing checks the ranges their docstrings give.  In
    particular 0 and 51 are accepted as result counts, and -0.5 and 1.5 as
    thresholds, as well as 1, 50, 0.0 and 1.0. *)
Theorem file_search_bounds_unchecked (n : Z) (q : Q) :
  (exists v r,
      validate response.Tool (file_search_tool n q) = Ok v /\
      attr v "max_num_results" = Some (PInt n) /\
      attr v "ranking_options" = Some r /\
      attr r "score_threshold" = Some (PFloat q)) /\
  (exists v r,
      validate tools.ToolParam (file_search_tool n q) = Ok v /\
      attr v "max_num_results" = Some (PInt n) /\
      attr v "ranking_options" = Some r /\
      attr r "score_threshold" = Some (PFloat q)).
Proof.
  split; do 2 eexists; (split; [reflexivity|]); repeat split; reflexivity.
Qed.

(** At and beyond the edges of the documented ranges. *)
Example file_search_out_of_range :
  (exists v, validate response.Tool (file_search_tool 0 1.5) = Ok v) /\
  (exists v, validate response.Tool (file_search_tool 51 (-0.5)) = Ok v) /\
  (exists v, validate response.Tool (file_search_tool 1 0) = Ok v) /\
  (exists v, validate response.Tool (file_search_tool 50 1) = Ok v).
Proof.
  repeat split; eexists; reflexivity.
Qed.

(** ** Filters *)

(** An element of a compound filter's [filters] is annotated
    [Union[ComparisonFilter, object]]: whatever the comparison filter makes of
    it, [object] accepts it. *)
Lemma filter_element_accepted (cf : ty) (x : pyval) :
  exists y, validate (TUnion [cf; TObject]) x = Ok y.
Proof.
  simpl. destruct (validate cf x) as [y|e]; eauto.
Qed.

Lemma validate_items_total (f : pyval -> result) :
  (forall x, exists y, f x = Ok y) ->
  forall l i, exists vs, validate_items f i l = Valid vs /\ List.length vs = List.length l.
Proof.
  intros Hf. induction l as [|x r IH]; intros i.
  - exists []. auto.
  - simpl. destruct (Hf x) as [y ->]. destruct (IH (S i)) as [vs [-> Hlen]].
    exists (y :: vs). simpl. auto.
Qed.

(** C6, evaluated on the code.  A compound filter decodes whatever its
    [filters] list holds, on the response side and on the request side: every
    element is accepted, none is rejected for being neither a comparison
    filter nor a compound filter. *)
Theorem compound_filter_accepts_any_element (l : list pyval) :
  (exists vs,
      validate response.CompoundFilter (compound l)
      = Ok (PModel "CompoundFilter" [("filters", PList vs); ("type", PStr "and")]
                   ["filters"; "type"]) /\
      List.length vs = List.length l) /\
  (exists v, validate tools.CompoundFilter (compound l) = Ok v).
Proof.
  split; [|eexists; reflexivity].
  destruct (validate_items_total
              (validate (TUnion [response.ComparisonFilter; TObject]))
              (filter_element_accepted response.ComparisonFilter) l 0)
    as [vs [Hvs Hlen]].
  exists vs. split; [|assumption].
  unfold compound, response.CompoundFilter, required.
  rewrite validate_model_eq, validate_fields_cons.
  rewrite (validate_field_given _ _ _ _ _ (PList l)) by reflexivity.
  rewrite validate_list_eq, Hvs. reflexivity.
Qed.

(** An element that is no filter at all. *)
Example compound_filter_third_shape :
  validate response.CompoundFilter (compound [PDict [("foo", PInt 1)]; PInt 42])
  = Ok (PModel "CompoundFilter"
               [("filters", PList [PDict [("foo", PInt 1)]; PInt 42]);
                ("type", PStr "and")]
               ["filters"; "type"]).
Proof. reflexivity. Qed.

(** C5, refuted as stated: a compound filter nested 17 levels deep decodes,
    as the filter of a file-search tool (either side) and on its own. *)
Lemma nested_17_accepted :
  depth_fuel 100 (nested 17) = 17 /\
  (exists v, validate response_filters (nested 17) = Ok v) /\
  (exists v, validate request_filters (nested 17) = Ok v) /\
  (exists v,
      validate response.Tool
               (PDict [("type", PStr "file_search"); ("vector_store_ids", PList []);
                       ("filters", nested 17)]) = Ok v).
Proof.
  split; [reflexivity|].
  repeat split; eexists; reflexivity.
Qed.

(** C5, as the code has it.  There is no depth bound and no error for a
    filter that is too deep: a compound filter nested to any depth decodes, on
    the response side and on the request side. *)
Theorem nested_filter_any_depth (n : nat) :
  depth_fuel (S (S n)) (nested (S n)) = S n /\
  (exists v, validate response_filters (nested (S n)) = Ok v) /\
  (exists v, validate request_filters (nested (S n)) = Ok v).
Proof.
  split; [|split].
  - induction n as [|n IH].
    + reflexivity.
    + change (nested (S (S n))) with (compound [nested (S n)]).
      unfold compound.
      change (depth_fuel (S (S (S n)))
                (PDict [("filters", PList [nested (S n)]); ("type", PStr "and")]))
        with (S (Nat.max (depth_fuel (S (S n)) (nested (S n))) 0)).
      rewrite IH. rewrite Nat.max_0_r. reflexivity.
  - destruct n; eexists; reflexivity.
  - eexists; reflexivity.
Qed.

(** ** Tool choice *)

(** C7, refuted as stated: a request whose [tool_choice] names the function
    ["f"] decodes when [tools] declares only a function ["g"], when [tools] is
    empty, and when [tools] is left out. *)
Lemma tool_choice_unknown_function_accepted :
  (exists v,
      validate schemas.ResponsesCreate
               (PDict (create_body (PStr "hi") "m"
                         [("tool_choice", tool_choice_function "f");
                          ("tools", PList [function_tool "g"])])) = Ok v) /\
  (exists v,
      validate schemas.ResponsesCreate
               (PDict (create_body (PStr "hi") "m"
                         [("tool_choice", tool_choice_function "f");
                          ("tools", PList [])])) = Ok v) /\
  (exists v,
      validate schemas.ResponsesCreate
               (PDict (create_body (PStr "hi") "m"
                         [("tool_choice", tool_choice_function "f")])) = Ok v).
Proof.
  repeat split; eexists; reflexivity.
Qed.

(** C7, as the code has it.  Decoding a request does not relate [tool_choice]
    to [tools]: a named-function selector for [f] decodes to a
    [ToolChoiceFunction] whatever function tools are declared (each of them a
    well-formed tool), named [f] or not, and also when [tools] is left
    out. *)
Theorem tool_choice_not_cross_checked (f model : string) (names : list string) :
  let choice :=
    PModel "ToolChoiceFunction" [("name", PStr f); ("type", PStr "function")]
           ["name"; "type"] in
  (exists v,
      validate schemas.ResponsesCreate
               (PDict (create_body (PStr "hi") model
                         [("tool_choice", tool_choice_function f);
                          ("tools", PList (map function_tool names))])) = Ok v /\
      attr v "tool_choice" = Some choice) /\
  (exists v,
      validate schemas.ResponsesCreate
               (PDict (create_body (PStr "hi") model
                         [("tool_choice", tool_choice_function f)])) = Ok v /\
      attr v "tool_choice" = Some choice /\
      attr v "tools" = Some PNone) /\
  Forall (fun t => validate tools.ToolParam t = Ok t) (map function_tool names).
Proof.
  intros choice. split; [|split].
  - eexists. split; reflexivity.
  - eexists. split; [reflexivity|]. split; reflexivity.
  - apply Forall_forall. intros t Ht. apply in_map_iff in Ht.
    destruct Ht as [name [<- _]]. reflexivity.
Qed.

(** ** Input images *)

(** C8, refuted as stated: an input-image part that gives both [file_id] and
    [image_url] decodes, and so does one that gives neither. *)
Lemma input_image_both_or_neither_accepted :
  validate params.ResponseInputContentParam
           (input_image "auto" (Given "file_1") (Given "http://x/y.png"))
  = Ok (input_image "auto" (Given "file_1") (Given "http://x/y.png")) /\
  validate params.ResponseInputContentParam (input_image "auto" Absent Absent)
  = Ok (input_image "auto" Absent Absent).
Proof.
  split; reflexivity.
Qed.

(** C8, as the code has it.  [file_id] and [image_url] are two independent
    optional keys: with any of the three detail levels, an input-image part
    decodes whether each of them is left out, null or a string. *)
Theorem input_image_fields_independent (file_id image_url : optional_str) :
  Forall (fun detail =>
            validate params.ResponseInputContentParam
                     (input_image detail file_id image_url)
            = Ok (input_image detail file_id image_url))
         ["high"; "low"; "auto"].
Proof.
  destruct file_id, image_url; repeat constructor.
Qed.

(** ** The input of a request *)

Lemma validate_union_cons (f : ty -> pyval -> result) (t : ty) (r : list ty)
      (v : pyval) :
  validate_union f (t :: r) v
  = match f t v with
    | Ok w => Ok w
    | Invalid e =>
        match validate_union f r v with
        | Ok w => Ok w
        | Invalid es => Invalid (map (under (LKey (label t))) e ++ es)
        end
    end.
Proof. reflexivity. Qed.

(** A list that decodes keeps its length and its order: position [n] of the
    result is what [f] makes of position [n] of the input. *)
Lemma validate_items_positions (f : pyval -> result) (l : list pyval) :
  forall i vs,
    validate_items f i l = Valid vs ->
    List.length vs = List.length l /\
    forall n x, nth_error l n = Some x ->
                exists y, nth_error vs n = Some y /\ f x = Ok y.
Proof.
  induction l as [|x0 r IH]; intros i vs H.
  - inversion H; subst. split; [reflexivity|].
    intros [|n] x Hn; discriminate.
  - simpl in H.
    destruct (f x0) as [y0|e] eqn:Hx;
      destruct (validate_items f (S i) r) as [vs'|es] eqn:Hr; try discriminate.
    inversion H; subst.
    destruct (IH (S i) vs' Hr) as [Hlen Hpos].
    split; [simpl; congruence|].
    intros [|n] x Hn; simpl in Hn.
    + inversion Hn; subst. exists y0. auto.
    + apply Hpos. assumption.
Qed.

(** C9, refuted as stated: the bare string ["hello"] given as [input]
    decodes to the string itself; the decoded input is no sequence of items,
    and in particular not the one user message around the text. *)
Lemma bare_string_input_kept :
  exists v,
    validate schemas.ResponsesCreate (PDict (create_body (PStr "hello") "m" [])) = Ok v /\
    attr v "input" = Some (PStr "hello") /\
    attr v "input" <> Some (PList [user_message "hello"]) /\
    forall items, attr v "input" <> Some (PList items).
Proof.
  eexists. split; [reflexivity|]. split; [reflexivity|].
  split; [discriminate|]. intros items. discriminate.
Qed.

(** C9, as the code has it.  In a request that decodes, an [input] given as
    a bare string is held as that string, unchanged; an [input] given as a
    sequence is held as a sequence of the same length, whose item at each
    position is the decoding of the given item at that position. *)
Theorem create_request_input (d : dict) (v : pyval) :
  validate schemas.ResponsesCreate (PDict d) = Ok v ->
  (forall s, lookup "input" d = Some (PStr s) -> attr v "input" = Some (PStr s)) /\
  (forall l, lookup "input" d = Some (PList l) ->
     exists items,
       attr v "input" = Some (PList items) /\
       List.length items = List.length l /\
       forall n x, nth_error l n = Some x ->
                   exists y, nth_error items n = Some y /\
                             validate params.ResponseInputItemParam x = Ok y).
Proof.
  intros Hv.
  apply validate_model_inv in Hv. destruct Hv as [vals [given [Hf ->]]].
  split.
  - intros s Hs.
    destruct (validate_fields_given validate _ d vals given "input" _ (PStr s)
                Hf Hs eq_refl) as [y [Hy Hl]].
    simpl in Hy. inversion Hy; subst. exact Hl.
  - intros l Hl.
    destruct (validate_fields_given validate _ d vals given "input" _ (PList l)
                Hf Hl eq_refl) as [y [Hy Hlk]].
    change (validate_union validate [TStr; params.ResponseInputParam] (PList l) = Ok y)
      in Hy.
    rewrite !validate_union_cons in Hy.
    change (validate TStr (PList l)) with (fail string_type (PList l)) in Hy.
    unfold fail, params.ResponseInputParam in Hy.
    rewrite validate_list_eq in Hy.
    destruct (validate_items (validate params.ResponseInputItemParam) 0 l)
      as [items|es] eqn:Hitems.
    + inversion Hy; subst.
      destruct (validate_items_positions _ l 0 items Hitems) as [Hlen Hpos].
      exists items. auto.
    + simpl in Hy. discriminate.
Qed.

(** A request with a bare string, and one with a sequence of two items. *)
Lemma create_request_input_witness :
  (exists v,
      validate schemas.ResponsesCreate (PDict (create_body (PStr "hello") "m" [])) = Ok v /\
      attr v "input" = Some (PStr "hello")) /\
  (exists v items,
      validate schemas.ResponsesCreate
               (PDict (create_body
                         (PList [user_message "first";
                                 PDict [("id", PStr "i1"); ("type", PStr "item_reference")]])
                         "m" [])) = Ok v /\
      attr v "input" = Some (PList items) /\
      List.length items = 2%nat).
Proof.
  split.
  - eexists. split; [reflexivity|].
    match goal with
    | |- attr ?v _ = _ =>
        exact (proj1 (create_request_input
                        (create_body (PStr "hello") "m" []) v eq_refl)
                     "hello" eq_refl)
    end.
  - destruct (validate schemas.ResponsesCreate
                (PDict (create_body
                          (PList [user_message "first";
                                  PDict [("id", PStr "i1");
                                         ("type", PStr "item_reference")]])
                          "m" []))) as [v|es] eqn:Hv;
      [|vm_compute in Hv; discriminate].
    destruct (proj2 (create_request_input _ v Hv) _ eq_refl)
      as [items [Ha [Hlen _]]].
    exists v, items. split; [reflexivity|]. split; [exact Ha|exact Hlen].
Defined.

(** ** Dispatch on [type] *)

Lemma validate_as_union (U : ty) (v : pyval) :
  is_union U = true ->
  validate U v = validate_union validate (variants U) v.
Proof.
  destruct U as [| | | | | | | | | |ts|U' meta| |]; try discriminate.
  - reflexivity.
  - destruct U'; try discriminate. reflexivity.
Qed.

Lemma type_literals_inv (m : ty) (lits : list string) :
  type_literals m = Some lits ->
  exists fd,
    In fd (fields_of m) /\ fkey fd = "type" /\ fpresence fd = Required /\
    ftype fd = TLiteral lits /\
    (forall d, validate m (PDict d)
               = match validate_fields validate (fields_of m) d with
                 | Valid (vals, given) =>
                     match m with
                     | TBaseModel cls _ => Ok (PModel cls vals given)
                     | _ => Ok (PDict vals)
                     end
                 | Errors es => Invalid es
                 end).
Proof.
  unfold type_literals.
  destruct m as [| | | | | | | | | | | |cls fs|cls fs]; try discriminate;
    (destruct (find (fun fd => String.eqb (fkey fd) "type") fs) as [fd|] eqn:Hfind;
     [|discriminate];
     destruct (fpresence fd) eqn:Hp; try discriminate;
     destruct (ftype fd) eqn:Ht; try discriminate;
     intros H; inversion H; subst;
     apply find_some in Hfind; destruct Hfind as [Hin Hk];
     apply String.eqb_eq in Hk;
     exists fd; repeat split; auto;
     intros d; simpl;
     destruct (validate_fields validate fs d) as [[vals given]|es]; reflexivity).
Qed.

Lemma literal_rejects (lits : list string) (x : pyval) :
  (forall s, x = PStr s -> ~ In s lits) ->
  validate (TLiteral lits) x = fail (literal_error lits) x.
Proof.
  intros H. destruct x; try reflexivity. simpl.
  destruct (existsb (String.eqb s) lits) eqn:E; [|reflexivity].
  apply existsb_exists in E. destruct E as [s' [Hin Heq]].
  apply String.eqb_eq in Heq. subst s'. exfalso. exact (H s eq_refl Hin).
Qed.

(** A class with a required [type] rejects a record that has none. *)
Lemma class_missing_type (m : ty) (lits : list string) (d : dict) :
  type_literals m = Some lits ->
  lookup "type" d = None ->
  exists e, validate m (PDict d) = Invalid e /\
            In (mkError [LKey "type"] missing (PDict d)) e.
Proof.
  intros Hm Hd.
  destruct (type_literals_inv m lits Hm) as [fd [Hin [Hk [Hp [_ Heq]]]]].
  rewrite <- Hk in Hd.
  destruct (validate_fields_missing validate _ d fd Hin Hp Hd) as [es [Hes Hmiss]].
  exists es. rewrite Heq, Hes. rewrite Hk in Hmiss. auto.
Qed.

(** A class with a required [type] rejects a record whose [type] is none of
    its literals, and the error carries the offending value. *)
Lemma class_unknown_type (m : ty) (lits : list string) (d : dict) (x : pyval) :
  type_literals m = Some lits ->
  lookup "type" d = Some x ->
  (forall s, x = PStr s -> ~ In s lits) ->
  exists e, validate m (PDict d) = Invalid e /\
            In (mkError [LKey "type"] (literal_error lits) x) e.
Proof.
  intros Hm Hd Hx.
  destruct (type_literals_inv m lits Hm) as [fd [Hin [Hk [_ [Ht Heq]]]]].
  rewrite <- Hk in Hd.
  assert (Hrej : validate (ftype fd) x = Invalid [mkError [] (literal_error lits) x]).
  { rewrite Ht. apply literal_rejects. assumption. }
  destruct (validate_fields_rejected validate _ d fd x _ Hin Hd Hrej) as [es [Hes Hincl]].
  exists es. rewrite Heq, Hes. split; [reflexivity|].
  apply Hincl. rewrite Hk. simpl. auto.
Qed.

Lemma closed_set_covers (U m : ty) (lits : list string) (s : string) :
  In m (variants U) -> type_literals m = Some lits -> In s lits ->
  In s (closed_set U).
Proof.
  intros Hm Hl Hs. unfold closed_set. apply in_flat_map.
  exists m. rewrite Hl. auto.
Qed.

Lemma discriminated_variant (U m : ty) :
  discriminated U = true -> In m (variants U) ->
  exists lits, type_literals m = Some lits.
Proof.
  unfold discriminated. intros H Hm.
  rewrite forallb_forall in H. specialize (H m Hm).
  destruct (type_literals m) as [lits|]; [eauto|discriminate].
Qed.

Lemma discriminated_unions_ok (U : ty) :
  In U discriminated_unions -> is_union U = true /\ discriminated U = true.
Proof.
  intros H. simpl in H.
  repeat (destruct H as [<-|H]; [split; reflexivity|]). contradiction.
Qed.

(** C2, refuted as stated: at the input item position a record that has no
    [type] is not rejected, it is decoded as a message. *)
Lemma untyped_message_accepted :
  lookup "type" [("content", PStr "hi"); ("role", PStr "user")] = None /\
  validate params.ResponseInputItemParam (untyped_message "user" "hi")
  = Ok (untyped_message "user" "hi").
Proof.
  split; reflexivity.
Qed.

(** C2, as the code has it.  At every union position all of whose variants
    declare a required [type], a record without [type] is rejected, each
    variant reporting the field [type] missing, and a record whose [type] is
    outside the closed set of the union's literals is rejected, each variant
    reporting a literal error that carries the offending value; no variant is
    chosen by default.  At the input item position [type] is optional for
    messages: a record with a role and a text and no [type] is decoded as a
    message. *)
Theorem discriminator_dispatch (U : ty) (d : dict) :
  In U discriminated_unions ->
  (lookup "type" d = None ->
   exists es,
     validate U (PDict d) = Invalid es /\
     forall m, In m (variants U) ->
               In (mkError [LKey (label m); LKey "type"] missing (PDict d)) es) /\
  (forall x,
      lookup "type" d = Some x ->
      (forall s, x = PStr s -> ~ In s (closed_set U)) ->
      exists es,
        validate U (PDict d) = Invalid es /\
        forall m lits, In m (variants U) -> type_literals m = Some lits ->
                       In (mkError [LKey (label m); LKey "type"] (literal_error lits) x)
                          es) /\
  Forall (fun role =>
            forall text,
              validate params.ResponseInputItemParam (untyped_message role text)
              = Ok (untyped_message role text))
         ["user"; "assistant"; "system"; "developer"].
Proof.
  intros HU. destruct (discriminated_unions_ok U HU) as [Hunion Hdisc].
  split; [|split].
  - intros Hd. rewrite (validate_as_union U _ Hunion).
    destruct (validate_union_rejects validate (variants U) (PDict d)) as [es [Hes Hall]].
    { intros m Hm. destruct (discriminated_variant U m Hdisc Hm) as [lits Hl].
      destruct (class_missing_type m lits d Hl Hd) as [e [He _]]. eauto. }
    exists es. split; [assumption|].
    intros m Hm. destruct (discriminated_variant U m Hdisc Hm) as [lits Hl].
    destruct (class_missing_type m lits d Hl Hd) as [e [He Hin]].
    apply (Hall m e Hm He).
    apply in_map_iff. exists (mkError [LKey "type"] missing (PDict d)). auto.
  - intros x Hd Hx. rewrite (validate_as_union U _ Hunion).
    assert (Hrej : forall m lits, In m (variants U) -> type_literals m = Some lits ->
                     exists e, validate m (PDict d) = Invalid e /\
                               In (mkError [LKey "type"] (literal_error lits) x) e).
    { intros m lits Hm Hl. apply class_unknown_type; auto.
      intros s Hs Hin. apply (Hx s Hs). eapply closed_set_covers; eauto. }
    destruct (validate_union_rejects validate (variants U) (PDict d)) as [es [Hes Hall]].
    { intros m Hm. destruct (discriminated_variant U m Hdisc Hm) as [lits Hl].
      destruct (Hrej m lits Hm Hl) as [e [He _]]. eauto. }
    exists es. split; [assumption|].
    intros m lits Hm Hl. destruct (Hrej m lits Hm Hl) as [e [He Hin]].
    apply (Hall m e Hm He).
    apply in_map_iff. exists (mkError [LKey "type"] (literal_error lits) x). auto.
  - repeat constructor.
Qed.

(** An output item without [type], and one whose [type] is unknown. *)
Lemma discriminator_dispatch_witness :
  (exists es,
      validate response.ResponseOutputItem (PDict [("id", PStr "x")]) = Invalid es /\
      In (mkError [LKey "ResponseOutputMessage"; LKey "type"] missing
                  (PDict [("id", PStr "x")])) es) /\
  (exists es,
      validate response.ResponseOutputItem
               (PDict [("id", PStr "x"); ("type", PStr "bogus")]) = Invalid es /\
      In (mkError [LKey "ResponseReasoningItem"; LKey "type"]
                  (literal_error ["reasoning"]) (PStr "bogus")) es).
Proof.
  split.
  - destruct (proj1 (discriminator_dispatch response.ResponseOutputItem
                       [("id", PStr "x")] (or_introl eq_refl)) eq_refl)
      as [es [Hes Hall]].
    exists es. split; [exact Hes|].
    apply (Hall response.ResponseOutputMessage). simpl. auto.
  - destruct (proj1 (proj2 (discriminator_dispatch response.ResponseOutputItem
                              [("id", PStr "x"); ("type", PStr "bogus")]
                              (or_introl eq_refl)))
                    (PStr "bogus") eq_refl) as [es [Hes Hall]].
    { intros s Hs. inversion Hs; subst. vm_compute.
      intros H. repeat (destruct H as [H|H]; [discriminate|]). exact H. }
    exists es. split; [exact Hes|].
    apply (Hall response.ResponseReasoningItem ["reasoning"]); [|reflexivity].
    simpl. auto 10.
Defined.

(** ** Round trip *)

(** C1.  For every variant of every union position (output items, content
    parts, annotations, actions, tools, tool choices and filters, on the
    response side and on the request side), decoding the minimal well-formed
    instance of the variant, whatever strings, numbers and literals it
    carries, and encoding the result gives the instance back. *)
Theorem minimal_instances_round_trip (p : payload) :
  Forall (fun U => Forall (fun t => round_trips U (minimal p "" t)) (variants U))
         (response_unions ++ request_unions).
Proof.
  destruct p as [s z q b n].
  repeat (apply Forall_cons || apply Forall_nil);
    unfold round_trips;
    do 7 (destruct n as [|n]; [vm_compute; eexists; split; reflexivity|]);
    vm_compute; eexists; split; reflexivity.
Qed.

(** pydantic's own [model_dump], called without options, writes the fields
    that were not given as well: it is the encoder of the spec that gives the
    instance back. *)
Example function_call_model_dump :
  let call := PDict [ ("arguments", PStr "{}"); ("call_id", PStr "c1");
                      ("name", PStr "f"); ("type", PStr "function_call") ] in
  exists w,
    validate response.ResponseOutputItem call = Ok w /\
    encode w = call /\
    model_dump w
    = PDict [ ("arguments", PStr "{}"); ("call_id", PStr "c1");
              ("name", PStr "f"); ("type", PStr "function_call");
              ("id", PNone); ("status", PNone) ].
Proof.
  eexists. split; [reflexivity|]. split; reflexivity.
Qed.

(** * Further properties of the declarations *)

(** ** What a class reads *)

Lemma validate_typed_dict_inv (cls : string) (fs : list (field ty)) (d : dict) (v : pyval) :
  validate (TTypedDict cls fs) (PDict d) = Ok v ->
  exists vals given,
    validate_fields validate fs d = Valid (vals, given) /\ v = PDict vals.
Proof.
  simpl. destruct (validate_fields validate fs d) as [[vals given]|es]; intros H;
    inversion H. eauto.
Qed.

Lemma class_inv (m : ty) (d : dict) (v : pyval) :
  is_class m ->
  validate m (PDict d) = Ok v ->
  exists vals given,
    validate_fields validate (fields_of m) d = Valid (vals, given) /\
    forall k, attr v k = lookup k vals.
Proof.
  intros Hm Hv.
  destruct m as [| | | | | | | | | | | |cls fs|cls fs]; try contradiction.
  - apply validate_model_inv in Hv. destruct Hv as [vals [given [Hf ->]]]. eauto.
  - apply validate_typed_dict_inv in Hv. destruct Hv as [vals [given [Hf ->]]]. eauto.
Qed.

Lemma declared_in (k : string) (fs : list (field ty)) (fd : field ty) :
  declared k fs = Some fd -> In fd fs /\ fkey fd = k.
Proof.
  unfold declared. intros H. apply find_some in H. destruct H as [Hin Hk].
  apply String.eqb_eq in Hk. auto.
Qed.

Lemma in_declared (fs : list (field ty)) (fd : field ty) :
  In fd fs -> exists fd', declared (fkey fd) fs = Some fd'.
Proof.
  intros Hin. unfold declared.
  destruct (find (fun fd0 => String.eqb (fkey fd) (fkey fd0)) fs) as [fd'|] eqn:Hf;
    [eauto|].
  pose proof (find_none _ _ Hf fd Hin) as Hn. simpl in Hn.
  rewrite String.eqb_refl in Hn. discriminate.
Qed.

(** A class that accepts a record was given every key it requires. *)
Lemma validate_fields_required_given (f : ty -> pyval -> result)
      (fs : list (field ty)) (d : dict) (r : dict * list string) (fd : field ty) :
  validate_fields f fs d = Valid r ->
  In fd fs -> fpresence fd = Required ->
  exists x, lookup (fkey fd) d = Some x.
Proof.
  intros Hv Hin Hp.
  destruct (lookup (fkey fd) d) as [x|] eqn:Hd; [eauto|].
  destruct (validate_fields_missing f fs d fd Hin Hp Hd) as [es [Hes _]].
  rewrite Hes in Hv. discriminate.
Qed.

Lemma literal_accepts (lits : list string) (x y : pyval) :
  validate (TLiteral lits) x = Ok y ->
  exists s, x = PStr s /\ y = PStr s /\ In s lits.
Proof.
  destruct x; simpl; try discriminate.
  destruct (existsb (String.eqb s) lits) eqn:E; [|discriminate].
  intros H. inversion H; subst. exists s. repeat split.
  apply existsb_exists in E. destruct E as [s' [Hin Heq]].
  apply String.eqb_eq in Heq. subst. assumption.
Qed.

Lemma literal_in (lits : list string) (s : string) :
  In s lits -> validate (TLiteral lits) (PStr s) = Ok (PStr s).
Proof.
  intros Hin.
  change (validate (TLiteral lits) (PStr s))
    with (if existsb (String.eqb s) lits then Ok (PStr s)
          else fail (literal_error lits) (PStr s)).
  assert (E : existsb (String.eqb s) lits = true).
  { apply existsb_exists. exists s. split; [exact Hin|apply String.eqb_refl]. }
  rewrite E. reflexivity.
Qed.

(** Only the declared keys of a record are looked at. *)
Lemma validate_field_same (f : ty -> pyval -> result) (fd : field ty) (d d' : dict)
      (r : option (string * pyval) * bool) :
  lookup (fkey fd) d = lookup (fkey fd) d' ->
  validate_field f fd d = Valid r -> validate_field f fd d' = Valid r.
Proof.
  intros Hsame. unfold validate_field. rewrite <- Hsame.
  destruct (lookup (fkey fd) d) as [x|]; [auto|].
  destruct (fpresence fd); auto. discriminate.
Qed.

Lemma validate_fields_same (f : ty -> pyval -> result) (fs : list (field ty))
      (d d' : dict) (r : dict * list string) :
  (forall fd, In fd fs -> lookup (fkey fd) d = lookup (fkey fd) d') ->
  validate_fields f fs d = Valid r -> validate_fields f fs d' = Valid r.
Proof.
  revert r.
  induction fs as [|fd0 fs IH]; intros r Hsame H; [exact H|].
  simpl in *.
  destruct (validate_field f fd0 d) as [[o b]|e] eqn:Hf;
    destruct (validate_fields f fs d) as [[vals given]|es] eqn:Hr;
    try discriminate.
  rewrite (validate_field_same f fd0 d d' (o, b) (Hsame fd0 (or_introl eq_refl)) Hf).
  rewrite (IH (vals, given)); auto.
Qed.

Lemma class_same (m : ty) (d d' : dict) (v : pyval) :
  is_class m ->
  (forall k, In k (declared_keys m) -> lookup k d = lookup k d') ->
  validate m (PDict d) = Ok v -> validate m (PDict d') = Ok v.
Proof.
  intros Hm Hsame.
  assert (Hfs : forall fd, In fd (fields_of m) ->
                           lookup (fkey fd) d = lookup (fkey fd) d').
  { intros fd Hin. apply Hsame. unfold declared_keys. apply in_map. assumption. }
  destruct m as [| | | | | | | | | | | |cls fs|cls fs]; try contradiction; simpl in *;
    (destruct (validate_fields validate fs d) as [[vals given]|es] eqn:Hf;
     [|discriminate];
     rewrite (validate_fields_same validate fs d d' _ Hfs Hf); auto).
Qed.

(** ** The two bodies: which fields they hold and require *)

Lemma class_holds_field (m : ty) (d : dict) (v : pyval) (k : string) :
  is_class m ->
  forallb (fun fd => match fpresence fd with NotRequired => false | _ => true end)
          (fields_of m) = true ->
  validate m (PDict d) = Ok v ->
  In k (declared_keys m) ->
  exists x, attr v k = Some x.
Proof.
  intros Hm Hall Hv Hk.
  destruct (class_inv m d v Hm Hv) as [vals [given [Hf Hattr]]].
  unfold declared_keys in Hk. apply in_map_iff in Hk. destruct Hk as [fd0 [<- Hin0]].
  destruct (in_declared _ fd0 Hin0) as [fd Hdecl].
  destruct (declared_in _ _ _ Hdecl) as [Hin Hkey].
  rewrite Hattr.
  destruct (lookup (fkey fd0) d) as [x|] eqn:Hd.
  - destruct (validate_fields_given validate _ d vals given _ fd x Hf Hd Hdecl)
      as [y [_ Hy]]. eauto.
  - rewrite forallb_forall in Hall. specialize (Hall fd Hin).
    destruct (fpresence fd) as [|x|] eqn:Hp; [|eauto|discriminate].
    + rewrite <- Hkey in Hd.
      destruct (validate_fields_required_given validate _ d _ fd Hf Hin Hp) as [x Hx].
      rewrite Hx in Hd. discriminate.
    + exists x. eapply validate_fields_default; eauto.
Qed.

(** X1.  A decoded [Response] or [ResponsesCreate] holds a value for every
    field the class declares, whether the body gave the field or not. *)
Theorem decoded_body_holds_every_field (m : ty) (d : dict) (v : pyval) (k : string) :
  In m [schemas.Response; schemas.ResponsesCreate] ->
  validate m (PDict d) = Ok v ->
  In k (declared_keys m) ->
  exists x, attr v k = Some x.
Proof.
  intros Hm. apply class_holds_field.
  - destruct Hm as [<-|[<-|[]]]; exact I.
  - destruct Hm as [<-|[<-|[]]]; reflexivity.
Qed.

Lemma decoded_body_holds_every_field_witness :
  exists v x,
    validate schemas.ResponsesCreate (PDict (create_body (PStr "hello") "m" [])) = Ok v /\
    attr v "user" = Some x.
Proof.
  destruct (validate schemas.ResponsesCreate
              (PDict (create_body (PStr "hello") "m" []))) as [v|es] eqn:Hv;
    [|vm_compute in Hv; discriminate].
  destruct (decoded_body_holds_every_field schemas.ResponsesCreate
              (create_body (PStr "hello") "m" []) v "user") as [x Hx].
  - simpl. auto.
  - exact Hv.
  - vm_compute. auto 20.
  - exists v, x. split; [reflexivity|exact Hx].
Defined.

Lemma class_required_missing (m : ty) (d : dict) (k : string) :
  is_class m ->
  In k (required_keys m) ->
  lookup k d = None ->
  exists es, validate m (PDict d) = Invalid es /\
             In (mkError [LKey k] missing (PDict d)) es.
Proof.
  intros Hm Hk Hd.
  unfold required_keys in Hk. apply in_map_iff in Hk. destruct Hk as [fd [<- Hin]].
  apply filter_In in Hin. destruct Hin as [Hin Hp].
  destruct (fpresence fd) eqn:Hp'; try discriminate.
  destruct m as [| | | | | | | | | | | |cls fs|cls fs]; try contradiction; simpl in *;
    destruct (validate_fields_missing validate fs d fd Hin Hp' Hd) as [es [-> Hes]];
    eauto.
Qed.

(** X2.  A response body that leaves out any of [created_at], [id], [model],
    [object], [output], [parallel_tool_calls], [status], [tool_choice] or
    [tools] is rejected, and so is a create request that leaves out [input] or
    [model]; the error names the missing field. *)
Theorem required_fields_enforced (d : dict) (k : string) :
  lookup k d = None ->
  (In k ["created_at"; "id"; "model"; "object"; "output"; "parallel_tool_calls";
         "status"; "tool_choice"; "tools"] ->
   exists es, validate schemas.Response (PDict d) = Invalid es /\
              In (mkError [LKey k] missing (PDict d)) es) /\
  (In k ["input"; "model"] ->
   exists es, validate schemas.ResponsesCreate (PDict d) = Invalid es /\
              In (mkError [LKey k] missing (PDict d)) es).
Proof.
  intros Hd. split; intros Hk; (apply class_required_missing; [exact I|exact Hk|exact Hd]).
Qed.

Lemma required_fields_enforced_witness :
  (exists es,
      validate schemas.Response (PDict [("id", PStr "r")]) = Invalid es /\
      In (mkError [LKey "status"] missing (PDict [("id", PStr "r")])) es) /\
  (exists es,
      validate schemas.ResponsesCreate (PDict [("input", PStr "hi")]) = Invalid es /\
      In (mkError [LKey "model"] missing (PDict [("input", PStr "hi")])) es).
Proof.
  split.
  - apply (proj1 (required_fields_enforced [("id", PStr "r")] "status" eq_refl)).
    simpl. auto 10.
  - apply (proj2 (required_fields_enforced [("input", PStr "hi")] "model" eq_refl)).
    simpl. auto.
Defined.

(** X3.  In a create request an explicit [null] is not the same as leaving
    the knob out: [parallel_tool_calls], [store], [stream], [top_p] and
    [truncation] have defaults other than [None], and a request that gives
    [null] for one of them decodes with [None] there, not with the default. *)
Theorem explicit_null_overrides_default (d : dict) (v : pyval) (k : string) :
  validate schemas.ResponsesCreate (PDict d) = Ok v ->
  In k ["parallel_tool_calls"; "store"; "stream"; "top_p"; "truncation"] ->
  lookup k d = Some PNone ->
  attr v k = Some PNone /\
  exists fd x, declared k (fields_of schemas.ResponsesCreate) = Some fd /\
               fpresence fd = Default x /\ x <> PNone.
Proof.
  intros Hv Hk Hd.
  apply validate_model_inv in Hv. destruct Hv as [vals [given [Hf ->]]].
  simpl in Hk.
  destruct Hk as [<-|[<-|[<-|[<-|[<-|[]]]]]];
    (split;
     [ destruct (validate_fields_given validate _ d vals given _ _ PNone Hf Hd eq_refl)
         as [y [Hy Hl]];
       simpl in Hy; inversion Hy; subst; exact Hl
     | do 2 eexists; split; [reflexivity|]; split; [reflexivity|discriminate] ]).
Qed.

Lemma explicit_null_overrides_default_witness :
  exists v,
    validate schemas.ResponsesCreate
             (PDict (create_body (PStr "hi") "m" [("stream", PNone)])) = Ok v /\
    attr v "stream" = Some PNone.
Proof.
  eexists. split; [reflexivity|].
  match goal with
  | |- attr ?v _ = _ =>
      exact (proj1 (explicit_null_overrides_default
                      (create_body (PStr "hi") "m" [("stream", PNone)]) v "stream"
                      eq_refl (or_intror (or_intror (or_introl eq_refl))) eq_refl))
  end.
Defined.

(** X4.  A class looks at its declared keys only.  Two records that agree on
    every key a class declares decode alike; so a key that the class does not
    declare changes nothing, and neither does the order of the keys. *)
Theorem class_reads_declared_keys_only (m : ty) (d : dict) (v : pyval) :
  is_class m ->
  validate m (PDict d) = Ok v ->
  (forall d', (forall k, In k (declared_keys m) -> lookup k d = lookup k d') ->
              validate m (PDict d') = Ok v) /\
  (forall k x, ~ In k (declared_keys m) -> validate m (PDict ((k, x) :: d)) = Ok v) /\
  (forall d', (forall k, lookup k d = lookup k d') -> validate m (PDict d') = Ok v).
Proof.
  intros Hm Hv. split; [|split].
  - intros d' Hsame. exact (class_same m d d' v Hm Hsame Hv).
  - intros k x Hk. apply (class_same m d ((k, x) :: d) v Hm); [|exact Hv].
    intros k' Hk'. simpl.
    destruct (String.eqb k' k) eqn:E; [|reflexivity].
    apply String.eqb_eq in E. subst. contradiction.
  - intros d' Hsame. apply (class_same m d d' v Hm); [|exact Hv].
    intros k _. apply Hsame.
Qed.

Lemma class_reads_declared_keys_only_witness :
  validate params.ItemReference
           (PDict [("note", PInt 1); ("type", PStr "item_reference"); ("id", PStr "i1")])
  = Ok (PDict [("id", PStr "i1"); ("type", PStr "item_reference")]).
Proof.
  apply (proj1 (class_reads_declared_keys_only params.ItemReference
                  [("id", PStr "i1"); ("type", PStr "item_reference")] _ I eq_refl)).
  intros k Hk. simpl in Hk. destruct Hk as [<-|[<-|[]]]; reflexivity.
Defined.

(** ** Output items of a response *)



(** X6.  An output message is an assistant message: at the output item
    position a record of type ["message"] whose [role] is anything but
    ["assistant"] is rejected. *)
Theorem output_message_role_is_assistant (d : dict) (r : pyval) :
  lookup "type" d = Some (PStr "message") ->
  lookup "role" d = Some r ->
  r <> PStr "assistant" ->
  exists es, validate response.ResponseOutputItem (PDict d) = Invalid es /\
             In (mkError [LKey "ResponseOutputMessage"; LKey "role"]
                         (literal_error ["assistant"]) r) es.
Proof.
  intros Ht Hr Hne.
  rewrite (validate_as_union response.ResponseOutputItem _ eq_refl).
  assert (Hmsg : exists e, validate response.ResponseOutputMessage (PDict d) = Invalid e /\
                           In (mkError [LKey "role"] (literal_error ["assistant"]) r) e).
  { assert (Hrej : validate (TLiteral ["assistant"]) r
                   = Invalid [mkError [] (literal_error ["assistant"]) r]).
    { apply literal_rejects. intros s -> [<-|[]]. apply Hne. reflexivity. }
    destruct (validate_fields_rejected validate
                (fields_of response.ResponseOutputMessage) d
                (required "role" (TLiteral ["assistant"])) r _
                ltac:(simpl; auto) Hr Hrej) as [es [Hes Hincl]].
    exists es. unfold response.ResponseOutputMessage. rewrite validate_model_eq.
    simpl fields_of in Hes. rewrite Hes. split; [reflexivity|].
    apply Hincl. simpl. auto. }
  destruct Hmsg as [e0 [He0 Hin0]].
  destruct (validate_union_rejects validate (variants response.ResponseOutputItem)
              (PDict d)) as [es [Hes Hall]].
  { intros m Hm. simpl in Hm.
    destruct Hm as [<-|Hm]; [eauto|].
    destruct (discriminated_variant response.ResponseOutputItem m eq_refl) as [lits Hl];
      [simpl; auto|].
    destruct (class_unknown_type m lits d (PStr "message") Hl Ht) as [e [He _]]; [|eauto].
    intros s Hs. inversion Hs; subst s.
    repeat (destruct Hm as [<-|Hm];
            [vm_compute in Hl; inversion Hl; subst lits; simpl;
             intros H; repeat (destruct H as [H|H]; [discriminate|]); exact H|]).
    contradiction. }
  exists es. split; [exact Hes|].
  apply (Hall response.ResponseOutputMessage e0); [simpl; auto|exact He0|].
  apply in_map_iff. exists (mkError [LKey "role"] (literal_error ["assistant"]) r). auto.
Qed.

Lemma output_message_role_is_assistant_witness :
  exists es,
    validate response.ResponseOutputItem
             (PDict [("id", PStr "m1"); ("content", PList []); ("role", PStr "user");
                     ("status", PStr "completed"); ("type", PStr "message")])
    = Invalid es.
Proof.
  destruct (output_message_role_is_assistant
              [("id", PStr "m1"); ("content", PList []); ("role", PStr "user");
               ("status", PStr "completed"); ("type", PStr "message")]
              (PStr "user") eq_refl eq_refl) as [es [Hes _]].
  - discriminate.
  - exists es. exact Hes.
Defined.

(** ** Input items *)

Lemma message_has_role_and_content (m : ty) (d : dict) (v : pyval) :
  In m [params.EasyInputMessageParam; params.Message] ->
  validate m (PDict d) = Ok v ->
  exists role content,
    lookup "role" d = Some (PStr role) /\
    In role ["user"; "assistant"; "system"; "developer"] /\
    lookup "content" d = Some content.
Proof.
  intros Hm Hv.
  assert (Hc : is_class m) by (destruct Hm as [<-|[<-|[]]]; exact I).
  destruct (class_inv m d v Hc Hv) as [vals [given [Hf _]]].
  assert (Hcontent : exists c, lookup "content" d = Some c).
  { destruct Hm as [<-|[<-|[]]];
      (eapply (validate_fields_required_given validate _ d _
                 (mkField "content" "content" _ Required) Hf);
       [left; reflexivity|reflexivity]). }
  assert (Hrole : exists r fd,
             lookup "role" d = Some r /\ declared "role" (fields_of m) = Some fd /\
             exists lits, ftype fd = TLiteral lits /\
                          incl lits ["user"; "assistant"; "system"; "developer"]).
  { destruct Hm as [<-|[<-|[]]].
    - destruct (validate_fields_required_given validate _ d _
                  (required "role" (TLiteral ["user"; "assistant"; "system"; "developer"]))
                  Hf) as [r Hr]; [right; left; reflexivity|reflexivity|].
      exists r. eexists. split; [exact Hr|]. split; [reflexivity|].
      eexists. split; [reflexivity|]. apply incl_refl.
    - destruct (validate_fields_required_given validate _ d _
                  (required "role" (TLiteral ["user"; "system"; "developer"]))
                  Hf) as [r Hr]; [right; left; reflexivity|reflexivity|].
      exists r. eexists. split; [exact Hr|]. split; [reflexivity|].
      eexists. split; [reflexivity|].
      intros s Hs. simpl in Hs. simpl. tauto. }
  destruct Hcontent as [c Hc'].
  destruct Hrole as [r [fd [Hr [Hdecl [lits [Ht Hincl]]]]]].
  destruct (validate_fields_given validate _ d vals given "role" fd r Hf Hr Hdecl)
    as [y [Hy _]].
  rewrite Ht in Hy. apply literal_accepts in Hy. destruct Hy as [s [-> [_ Hs]]].
  exists s, c. auto.
Qed.

(** X7.  At the input item position a record without [type] can only be a
    message: if it decodes, it gives a [content] and a [role] that is one of
    ["user"], ["assistant"], ["system"] and ["developer"].  Every other kind
    of item needs its [type]. *)
Theorem untyped_input_item_is_message (d : dict) (v : pyval) :
  lookup "type" d = None ->
  validate params.ResponseInputItemParam (PDict d) = Ok v ->
  exists role content,
    lookup "role" d = Some (PStr role) /\
    In role ["user"; "assistant"; "system"; "developer"] /\
    lookup "content" d = Some content.
Proof.
  intros Ht Hv.
  change (validate_union validate (variants params.ResponseInputItemParam) (PDict d)
          = Ok v) in Hv.
  simpl variants in Hv. rewrite !validate_union_cons in Hv.
  destruct (validate params.EasyInputMessageParam (PDict d)) as [w|e1] eqn:H1.
  { eapply message_has_role_and_content; [|exact H1]. simpl. auto. }
  destruct (validate params.Message (PDict d)) as [w|e2] eqn:H2.
  { eapply message_has_role_and_content; [|exact H2]. simpl. auto. }
  exfalso.
  repeat match type of Hv with
         | context [validate ?m (PDict d)] =>
             let e := fresh "e" in
             let He := fresh "He" in
             destruct (class_missing_type m _ d eq_refl Ht) as [e [He _]];
             rewrite He in Hv; clear He
         end.
  simpl in Hv. discriminate.
Qed.

Lemma untyped_input_item_is_message_witness :
  exists role content,
    lookup "role" [("content", PStr "hi"); ("role", PStr "system")] = Some (PStr role) /\
    In role ["user"; "assistant"; "system"; "developer"] /\
    lookup "content" [("content", PStr "hi"); ("role", PStr "system")] = Some content.
Proof.
  exact (untyped_input_item_is_message
           [("content", PStr "hi"); ("role", PStr "system")] _ eq_refl eq_refl).
Defined.

Lemma class_type_rejected (m : ty) (lits : list string) (d : dict) (x : pyval) :
  is_class m ->
  type_annotation m = Some lits ->
  lookup "type" d = Some x ->
  (forall s, x = PStr s -> ~ In s lits) ->
  exists e, validate m (PDict d) = Invalid e.
Proof.
  intros Hm Ha Hd Hx.
  unfold type_annotation in Ha.
  destruct (declared "type" (fields_of m)) as [fd|] eqn:Hdecl; [|discriminate].
  destruct (ftype fd) eqn:Hty; try discriminate.
  inversion Ha; subst.
  destruct (declared_in _ _ _ Hdecl) as [Hin Hk].
  rewrite <- Hk in Hd.
  assert (Hrej : validate (ftype fd) x = Invalid [mkError [] (literal_error lits) x]).
  { rewrite Hty. apply literal_rejects. assumption. }
  destruct (validate_fields_rejected validate _ d fd x _ Hin Hd Hrej) as [es [Hes _]].
  destruct m as [| | | | | | | | | | | |cls fs|cls fs]; try contradiction; simpl in *;
    rewrite Hes; eauto.
Qed.

(** X8.  At the input item position a record whose [type] is given and is
    none of the nine item types is rejected, messages included: [type] may be
    left out of a message, but if it is given it has to be ["message"]. *)
Theorem input_item_unknown_type_rejected (d : dict) (x : pyval) :
  lookup "type" d = Some x ->
  (forall s, x = PStr s ->
             ~ In s ["message"; "file_search_call"; "computer_call";
                     "computer_call_output"; "web_search_call"; "function_call";
                     "function_call_output"; "reasoning"; "item_reference"]) ->
  exists es, validate params.ResponseInputItemParam (PDict d) = Invalid es.
Proof.
  intros Hd Hx.
  change (exists es,
             validate_union validate (variants params.ResponseInputItemParam) (PDict d)
             = Invalid es).
  destruct (validate_union_rejects validate (variants params.ResponseInputItemParam)
              (PDict d)) as [es [Hes _]]; [|eauto].
  intros m Hm. simpl in Hm.
  repeat (destruct Hm as [<-|Hm];
          [eapply class_type_rejected;
           [exact I | reflexivity | exact Hd
            | intros s Hs Hin; apply (Hx s Hs); simpl in Hin; simpl; tauto]|]).
  contradiction.
Qed.

Lemma input_item_unknown_type_rejected_witness :
  exists es,
    validate params.ResponseInputItemParam
             (PDict [("content", PStr "hi"); ("role", PStr "user"); ("type", PStr "note")])
    = Invalid es.
Proof.
  apply (input_item_unknown_type_rejected
           [("content", PStr "hi"); ("role", PStr "user"); ("type", PStr "note")]
           (PStr "note") eq_refl).
  intros s Hs. inversion Hs; subst s.
  intros H. simpl in H. repeat (destruct H as [H|H]; [discriminate|]). exact H.
Defined.

(** ** Closed sets of literals *)

(** X9.  The error of a response carries one of the eighteen error codes
    and a message: an error record decodes exactly when its [code] is one of
    them and its [message] is a string, and the decoded error holds the two as
    given. *)
Theorem response_error_code_closed (d : dict) (v : pyval) :
  let codes :=
    [ "server_error"; "rate_limit_exceeded"; "invalid_prompt";
      "vector_store_timeout"; "invalid_image"; "invalid_image_format";
      "invalid_base64_image"; "invalid_image_url"; "image_too_large";
      "image_too_small"; "image_parse_error"; "image_content_policy_violation";
      "invalid_image_mode"; "image_file_too_large"; "unsupported_image_media_type";
      "empty_image_file"; "failed_to_download_image"; "image_file_not_found" ] in
  validate response.ResponseError (PDict d) = Ok v <->
  exists code message,
    lookup "code" d = Some (PStr code) /\ In code codes /\
    lookup "message" d = Some (PStr message) /\
    v = PModel "ResponseError" [("code", PStr code); ("message", PStr message)]
               ["code"; "message"].
Proof.
  intros codes.
  unfold response.ResponseError. rewrite validate_model_eq, !validate_fields_cons.
  unfold validate_field, required.
  cbn [fkey ftype fpresence validate_fields].
  fold codes.
  split.
  - destruct (lookup "code" d) as [c|]; [|destruct (lookup "message" d) as [m|];
      [destruct (validate TStr m)|]; discriminate].
    destruct (validate (TLiteral codes) c) as [y|e] eqn:Hc;
      [|destruct (lookup "message" d) as [m|];
          [destruct (validate TStr m)|]; discriminate].
    apply literal_accepts in Hc. destruct Hc as [code [-> [-> Hin]]].
    destruct (lookup "message" d) as [m|]; [|discriminate].
    destruct m; try discriminate.
    simpl. intros H. inversion H; subst. eauto 10.
  - intros [code [message [-> [Hin [-> ->]]]]].
    rewrite (literal_in codes code Hin). reflexivity.
Qed.

(** X10.  As a plain string, a tool choice is one of the three policies: the
    strings ["none"], ["auto"] and ["required"] decode to themselves, and any
    other string is rejected, in a response and in a request. *)
Theorem tool_choice_policy_closed (s : string) :
  (In s ["none"; "auto"; "required"] ->
   validate response.ToolChoice (PStr s) = Ok (PStr s) /\
   validate tools.ToolChoice (PStr s) = Ok (PStr s)) /\
  (~ In s ["none"; "auto"; "required"] ->
   (exists es, validate response.ToolChoice (PStr s) = Invalid es) /\
   (exists es, validate tools.ToolChoice (PStr s) = Invalid es)).
Proof.
  split.
  - intros [<-|[<-|[<-|[]]]]; split; reflexivity.
  - intros Hs.
    assert (Hrej : validate tools.ToolChoiceOptions (PStr s)
                   = fail (literal_error ["none"; "auto"; "required"]) (PStr s)).
    { apply literal_rejects. intros s' Heq. inversion Heq; subst. exact Hs. }
    split;
      [change (exists es,
                  validate_union validate
                    [tools.ToolChoiceOptions; response.ToolChoiceFunction] (PStr s)
                  = Invalid es)
      |change (exists es,
                  validate_union validate
                    [tools.ToolChoiceOptions; tools.ToolChoiceFunctionParam] (PStr s)
                  = Invalid es)];
      rewrite !validate_union_cons, Hrej; eexists; reflexivity.
Qed.

Lemma tool_choice_policy_closed_witness :
  validate response.ToolChoice (PStr "required") = Ok (PStr "required") /\
  exists es, validate response.ToolChoice (PStr "always") = Invalid es.
Proof.
  split.
  - apply (proj1 (tool_choice_policy_closed "required")). simpl. auto.
  - apply (proj2 (tool_choice_policy_closed "always")).
    simpl. intros H. repeat (destruct H as [H|H]; [discriminate|]). exact H.
Defined.


(** ** What is not checked *)

Lemma validate_values_strings (entries : list (string * string)) :
  validate_values (validate TStr) (strings entries) = Valid (strings entries).
Proof.
  induction entries as [|[k s] r IH]; [reflexivity|].
  change (strings ((k, s) :: r)) with ((k, PStr s) :: strings r).
  cbn [validate_values]. rewrite IH. reflexivity.
Qed.

(** X12.  Metadata is a plain string-to-string map: a map of any number of
    entries, with keys and values of any length, decodes to itself.  The 16
    entries, 64 characters and 512 characters of the field's description are
    not checked. *)
Theorem metadata_unbounded (entries : list (string * string)) :
  validate schemas.Metadata (PDict (strings entries)) = Ok (PDict (strings entries)).
Proof.
  unfold schemas.Metadata.
  change (match validate_values (validate TStr) (strings entries) with
          | Valid vs => Ok (PDict vs)
          | Errors es => Invalid es
          end = Ok (PDict (strings entries))).
  rewrite validate_values_strings. reflexivity.
Qed.

(** X13.  The sampling knobs of a create request are not range-checked: any
    [temperature], any [top_p] and any [max_output_tokens], negative ones
    included, decode and are held as given. *)
Theorem sampling_knobs_unchecked (temperature top_p : Q) (max_output_tokens : Z)
        (model : string) :
  exists v,
    validate schemas.ResponsesCreate
             (PDict (create_body (PStr "hi") model
                       [("temperature", PFloat temperature);
                        ("top_p", PFloat top_p);
                        ("max_output_tokens", PInt max_output_tokens)])) = Ok v /\
    attr v "temperature" = Some (PFloat temperature) /\
    attr v "top_p" = Some (PFloat top_p) /\
    attr v "max_output_tokens" = Some (PInt max_output_tokens).
Proof.
  eexists. split; [reflexivity|]. repeat split; reflexivity.
Qed.

(** ** The application plugin *)

(** X14.  Initialising the plugin keeps every route handler that was already
    registered, in order, adds [SystemController] after them and leaves the
    rest of the configuration alone; initialising [n] times registers the
    controller [n] times, nothing is deduplicated. *)
Theorem on_app_init_registers (handler rest : Type) (SystemController : handler)
        (app_config : core.AppConfig handler rest) (n : nat) :
  let init := core.on_app_init handler rest SystemController in
  core.route_handlers (Nat.iter n init app_config)
  = core.route_handlers app_config ++ repeat SystemController n /\
  core.settings (Nat.iter n init app_config) = core.settings app_config.
Proof.
  intros init. induction n as [|n [IHr IHs]].
  - simpl. rewrite app_nil_r. auto.
  - change (Nat.iter (S n) init app_config) with (init (Nat.iter n init app_config)).
    unfold init at 1 3. unfold core.on_app_init.
    cbn [core.route_handlers core.settings].
    rewrite IHr, IHs. split; [|reflexivity].
    rewrite <- app_assoc. f_equal.
    change [SystemController] with (repeat SystemController 1).
    rewrite <- repeat_app. rewrite Nat.add_comm. reflexivity.
Qed.

(** ** Request records hold what was given *)

Lemma validate_fields_held (f : ty -> pyval -> result) (fs : list (field ty))
      (d vals : dict) (given : list string) (k : string) (y : pyval) :
  validate_fields f fs d = Valid (vals, given) ->
  lookup k vals = Some y ->
  exists fd, In fd fs /\ fkey fd = k /\
             ((exists x, lookup k d = Some x) \/ fpresence fd = Default y).
Proof.
  revert vals given.
  induction fs as [|fd0 r IH]; intros vals given Hv Hl.
  - inversion Hv; subst. discriminate.
  - simpl in Hv.
    destruct (validate_field f fd0 d) as [[o b]|e] eqn:Hf;
      destruct (validate_fields f r d) as [[vals' given']|es] eqn:Hr;
      try discriminate.
    inversion Hv; subst; clear Hv.
    destruct (String.eqb k (fkey fd0)) eqn:Hk.
    + apply String.eqb_eq in Hk. subst k.
      unfold validate_field in Hf.
      destruct (lookup (fkey fd0) d) as [x|] eqn:Hd.
      * exists fd0. split; [left; reflexivity|]. split; [reflexivity|].
        left. exists x. reflexivity.
      * destruct (fpresence fd0) as [|x|] eqn:Hp; try discriminate;
          inversion Hf; subst; simpl in Hl.
        -- rewrite String.eqb_refl in Hl. inversion Hl; subst.
           exists fd0. split; [left; reflexivity|]. split; [reflexivity|].
           right. exact Hp.
        -- destruct (IH vals' given' eq_refl Hl) as [fd [Hin [Hkey Hor]]].
           exists fd. split; [right; exact Hin|]. split; [exact Hkey|exact Hor].
    + rewrite (lookup_entry_other f k fd0 d vals' o b Hf Hk) in Hl.
      destruct (IH vals' given' eq_refl Hl) as [fd [Hin [Hkey Hor]]].
      exists fd. split; [right; exact Hin|]. split; [exact Hkey|exact Hor].
Qed.

(** X15.  A decoded request record holds exactly the declared keys that the
    raw record gave: for every [TypedDict] class of the request side, whose
    fields have no defaults, a key is in the decoded record if and only if
    the class declares it and the raw record gives it.  Nothing is filled in
    and nothing undeclared is kept. *)
Theorem typed_dict_holds_given_keys (cls : string) (fs : list (field ty))
        (d : dict) (v : pyval) (k : string) :
  forallb (fun fd => match fpresence fd with Default _ => false | _ => true end) fs
  = true ->
  validate (TTypedDict cls fs) (PDict d) = Ok v ->
  ((exists y, attr v k = Some y) <->
   (In k (declared_keys (TTypedDict cls fs)) /\ exists x, lookup k d = Some x)).
Proof.
  intros Hnd Hv.
  apply validate_typed_dict_inv in Hv. destruct Hv as [vals [given [Hf ->]]].
  simpl attr. unfold declared_keys. simpl fields_of.
  split.
  - intros [y Hy].
    destruct (validate_fields_held validate fs d vals given k y Hf Hy)
      as [fd [Hin [Hkey Hor]]].
    split; [apply in_map_iff; eauto|].
    destruct Hor as [Hx|Hdef]; [exact Hx|].
    rewrite forallb_forall in Hnd. specialize (Hnd fd Hin).
    rewrite Hdef in Hnd. discriminate.
  - intros [Hk [x Hx]].
    apply in_map_iff in Hk. destruct Hk as [fd0 [<- Hin0]].
    destruct (in_declared fs fd0 Hin0) as [fd Hdecl].
    destruct (validate_fields_given validate fs d vals given _ fd x Hf Hx Hdecl)
      as [y [_ Hy]].
    eauto.
Qed.

Lemma typed_dict_holds_given_keys_witness :
  (exists y,
      attr (PDict [("call_id", PStr "c1"); ("output", PStr "{}");
                   ("type", PStr "function_call_output")]) "status" = Some y) <->
  (In "status" (declared_keys params.FunctionCallOutput) /\
   exists x,
     lookup "status" [("call_id", PStr "c1"); ("output", PStr "{}");
                      ("type", PStr "function_call_output"); ("extra", PInt 1)]
     = Some x).
Proof.
  apply (typed_dict_holds_given_keys "FunctionCallOutput"
           (fields_of params.FunctionCallOutput)
           [("call_id", PStr "c1"); ("output", PStr "{}");
            ("type", PStr "function_call_output"); ("extra", PInt 1)]).
  - reflexivity.
  - reflexivity.
Defined.
